(** * IoTSensorMonitoring: the Sense HAT environment monitor

    A shallow embedding of [TaskA/SensorMonitor.py] (the threaded monitor,
    class [SensorMonitor] and [main]) and of the older single-loop script
    [SensorMonitor.py], with the properties of the design document stated
    and settled against them.

    Conventions.
    - Python numbers (int and finite float) are exact rationals [Q]; the
      comparison operators of Python on such numbers are the mathematical
      ones.  Where a float that is not finite can reach the code (a bound
      read by [json.load], a value handed to a classifier), numbers are
      of type [number], which adds [inf], [-inf] and [nan].  Arithmetic
      and [round] are exact on [Q]: the rounding of a double to the
      nearest representable value is not part of the model.
    - Dictionaries with a fixed set of keys (a reading, a set of labels,
      the validated thresholds) are records; the raw configuration
      document, whose shape is what the loader checks, is a [json] value.
    - Raising is explicit: fallible code returns a [result]. *)

From Stdlib Require Import Bool List String Ascii ZArith QArith Qround Qabs Lia.
From Stdlib Require Import Qminmax DecimalString Morphisms Setoid.
Import ListNotations.
Local Open Scope string_scope.
Local Open Scope Q_scope.
Set Warnings "-register-all".

(** ** Numbers *)

(** [a < b] and [a <= b] on Python numbers, as booleans. *)
Definition Qleb (a b : Q) : bool := Qle_bool a b.
Definition Qltb (a b : Q) : bool := negb (Qle_bool b a).

(** Python's [round(x, 1)] on an exact value: the nearest multiple of one
    tenth, a tie going to the even one. *)
Definition round_half_even (x : Q) : Z :=
  let n := Qfloor x in
  let frac := x - inject_Z n in
  if Qltb frac (1#2) then n
  else if Qltb (1#2) frac then (n + 1)%Z
  else if Z.even n then n else (n + 1)%Z.

Definition round1 (x : Q) : Q := inject_Z (round_half_even (x * 10)) / 10.

(** Python's [max(a, b)]: the first argument unless the second is greater. *)
Definition py_max (a b : Q) : Q := if Qltb a b then b else a.

(** The floats that are not finite, and a number that may be one of them.
    Every comparison with [nan] is false, [nan == nan] included. *)
Inductive nonfinite := PosInf | NegInf | NaN.

Inductive number :=
| Fin (q : Q)
| NonFin (x : nonfinite).

(** [a < b], [a <= b] and [a == b]. *)
Definition num_ltb (a b : number) : bool :=
  match a, b with
  | Fin x, Fin y => Qltb x y
  | Fin _, NonFin PosInf => true
  | NonFin NegInf, Fin _ => true
  | NonFin NegInf, NonFin PosInf => true
  | _, _ => false
  end.

Definition num_leb (a b : number) : bool :=
  match a, b with
  | Fin x, Fin y => Qleb x y
  | Fin _, NonFin PosInf => true
  | NonFin NegInf, Fin _ => true
  | NonFin NegInf, NonFin PosInf => true
  | NonFin PosInf, NonFin PosInf => true
  | NonFin NegInf, NonFin NegInf => true
  | _, _ => false
  end.

Definition num_eqb (a b : number) : bool :=
  match a, b with
  | Fin x, Fin y => Qeq_bool x y
  | NonFin PosInf, NonFin PosInf => true
  | NonFin NegInf, NonFin NegInf => true
  | _, _ => false
  end.

(** ** Readings, labels and thresholds *)

Record Range := mkRange { rmin : Q; rmax : Q }.

Record Orientation := mkOrientation
  { o_pitch : Range; o_roll : Range; o_yaw : Range }.

(** [self.config] once validated: the four sections read by [_classify]. *)
Record Config := mkConfig
  { cfg_temperature : Range;
    cfg_humidity : Range;
    cfg_pressure : Range;
    cfg_orientation : Orientation }.

(** The dictionary returned by [_read_sensors]. *)
Record Reading := mkReading
  { temperature : Q; humidity : Q; pressure : Q;
    pitch : Q; roll : Q; yaw : Q }.

(** The dictionary returned by [_classify]. *)
Record Classes := mkClasses
  { c_temperature : string; c_humidity : string;
    c_pressure : string; c_orientation : string }.

(** What the Sense HAT returns when it is polled once. *)
Record Raw := mkRaw
  { get_temperature : Q; get_humidity : Q; get_pressure : Q;
    get_pitch : Q; get_roll : Q; get_yaw : Q }.

(** ** Sensors and classification ([TaskA/SensorMonitor.py]) *)

Definition _read_sensors (temp_offset : Q) (sense : Raw) : Reading :=
  let t := get_temperature sense + temp_offset in
  let h := get_humidity sense in
  let p := get_pressure sense in
  {| temperature := round1 t;
     humidity := round1 h;
     pressure := round1 p;
     pitch := round1 (get_pitch sense);
     roll := round1 (get_roll sense);
     yaw := round1 (get_yaw sense) |}.

Definition _bucket (v lo hi : Q) : string :=
  if Qltb v lo then "Low"
  else if Qltb hi v then "High"
  else "Comfortable".

(** The chained comparison [lo <= x <= hi]. *)
Definition within (rg : Range) (x : Q) : bool :=
  Qleb (rmin rg) x && Qleb x (rmax rg).

Definition aligned (o : Orientation) (r : Reading) : bool :=
  within (o_pitch o) (pitch r) &&
  within (o_roll o) (roll r) &&
  within (o_yaw o) (yaw r).

Definition _classify (cfg : Config) (r : Reading) : Classes :=
  let temp_c := _bucket (temperature r)
                  (rmin (cfg_temperature cfg)) (rmax (cfg_temperature cfg)) in
  let hum_c := _bucket (humidity r)
                  (rmin (cfg_humidity cfg)) (rmax (cfg_humidity cfg)) in
  let prs_c := _bucket (pressure r)
                  (rmin (cfg_pressure cfg)) (rmax (cfg_pressure cfg)) in
  let ori_c := if aligned (cfg_orientation cfg) r then "Aligned" else "Tilted" in
  {| c_temperature := temp_c; c_humidity := hum_c;
     c_pressure := prs_c; c_orientation := ori_c |}.

(** ** The single-loop script ([SensorMonitor.py]) *)

Module Legacy.

(** The module-level names bound from the configuration file: a pair of
    bounds per scalar, and one number per axis in [orientation_ranges],
    which [classify_orientation] compares with an absolute value. *)
Record Globals := mkGlobals
  { min_temp : Q; max_temp : Q;
    min_humidity : Q; max_humidity : Q;
    min_pressure : Q; max_pressure : Q;
    orientation_pitch : Q; orientation_roll : Q; orientation_yaw : Q }.

Definition classify_temperature (g : Globals) (temp : Q) : string :=
  if Qltb temp (min_temp g) then "Low"
  else if Qleb (min_temp g) temp && Qleb temp (max_temp g) then "Comfortable"
  else "High".

Definition classify_humidity (g : Globals) (humidity : Q) : string :=
  if Qltb humidity (min_humidity g) then "Low"
  else if Qleb (min_humidity g) humidity && Qleb humidity (max_humidity g)
       then "Comfortable"
  else "High".

Definition classify_pressure (g : Globals) (pressure : Q) : string :=
  if Qltb pressure (min_pressure g) then "Low"
  else if Qleb (min_pressure g) pressure && Qleb pressure (max_pressure g)
       then "Comfortable"
  else "High".

Definition classify_orientation (g : Globals) (pitch roll yaw : Q) : string :=
  if Qltb (orientation_pitch g) (Qabs pitch)
     || Qltb (orientation_roll g) (Qabs roll)
     || Qltb (orientation_yaw g) (Qabs yaw)
  then "Tilted"
  else "Aligned".

End Legacy.

(** ** Exceptions *)

Inductive exn :=
| ConfigError (msg : string)
| TypeError
| KeyError (key : string)
| AttributeError
| NameError (name : string)
| ValueError
| OverflowError
| SystemExit (code : Z)
| KeyboardInterrupt
| OtherError (msg : string).

Inductive result (A : Type) :=
| Ok (a : A)
| Raise (e : exn).

Arguments Ok {A} a.
Arguments Raise {A} e.

Definition bind {A B} (m : result A) (k : A -> result B) : result B :=
  match m with
  | Ok a => k a
  | Raise e => Raise e
  end.

Notation "x <- m ;; k" := (bind m (fun x => k))
  (at level 61, m at next level, right associativity).

(** ** The configuration document *)

(** What [json.load] returns: [None], a bool, a number, a string, a list,
    or a dict.  A number is an int or a finite float ([JNum]), or one of
    the floats that the parser makes of [NaN], [Infinity] and [-Infinity]
    ([JNonFinite]).  A dict is the list of its items in document order;
    when a key occurs twice the parser keeps the last item. *)
Inductive json :=
| JNull
| JBool (b : bool)
| JNum (q : Q)
| JNonFinite (x : nonfinite)
| JStr (s : string)
| JArr (items : list json)
| JObj (items : list (string * json)).

Fixpoint dict_get (k : string) (kvs : list (string * json)) : option json :=
  match kvs with
  | [] => None
  | (k', v) :: rest =>
      match dict_get k rest with
      | Some v' => Some v'
      | None => if String.eqb k k' then Some v else None
      end
  end.

Definition dict_has (k : string) (kvs : list (string * json)) : bool :=
  existsb (fun kv => String.eqb k (fst kv)) kvs.

(** [needle in hay] on two strings. *)
Fixpoint contains (needle hay : string) : bool :=
  String.prefix needle hay ||
  match hay with
  | EmptyString => false
  | String _ hay' => contains needle hay'
  end.

(** [k in v] for a string [k]. *)
Definition py_in (k : string) (v : json) : result bool :=
  match v with
  | JObj kvs => Ok (dict_has k kvs)
  | JArr xs =>
      Ok (existsb (fun x => match x with JStr s => String.eqb k s | _ => false end) xs)
  | JStr s => Ok (contains k s)
  | JNull | JBool _ | JNum _ | JNonFinite _ => Raise TypeError
  end.

(** [v[k]] for a string [k]. *)
Definition py_getitem (v : json) (k : string) : result json :=
  match v with
  | JObj kvs =>
      match dict_get k kvs with
      | Some x => Ok x
      | None => Raise (KeyError k)
      end
  | _ => Raise TypeError
  end.

(** The value of an int, a float or a bool ([bool] is a subclass of [int]). *)
Definition as_number (v : json) : option number :=
  match v with
  | JNum q => Some (Fin q)
  | JNonFinite x => Some (NonFin x)
  | JBool true => Some (Fin 1)
  | JBool false => Some (Fin 0)
  | _ => None
  end.

(** [isinstance(v, (int, float))]. *)
Definition is_int_or_float (v : json) : bool :=
  match as_number v with Some _ => true | None => false end.

(** [a == b]. *)
Fixpoint json_eqb (a b : json) {struct a} : bool :=
  match a, b with
  | JNull, JNull => true
  | JStr s, JStr t => String.eqb s t
  | JArr la, JArr lb =>
      (fix go (la lb : list json) {struct la} : bool :=
         match la, lb with
         | [], [] => true
         | x :: la', y :: lb' => json_eqb x y && go la' lb'
         | _, _ => false
         end) la lb
  | JObj ka, JObj kb =>
      Nat.eqb (List.length ka) (List.length kb) &&
      (fix go (ka : list (string * json)) {struct ka} : bool :=
         match ka with
         | [] => true
         | (k, v) :: ka' =>
             match dict_get k kb with
             | Some v' => json_eqb v v' && go ka'
             | None => false
             end
         end) ka
  | (JBool _ | JNum _ | JNonFinite _), (JBool _ | JNum _ | JNonFinite _) =>
      match as_number a, as_number b with
      | Some x, Some y => num_eqb x y
      | _, _ => false
      end
  | _, _ => false
  end.

(** [a >= b]: numbers by value, strings and lists lexicographically,
    anything else is a [TypeError]. *)
Fixpoint py_ge (a b : json) {struct a} : result bool :=
  match a, b with
  | (JBool _ | JNum _ | JNonFinite _), (JBool _ | JNum _ | JNonFinite _) =>
      match as_number a, as_number b with
      | Some x, Some y => Ok (num_leb y x)
      | _, _ => Raise TypeError
      end
  | JStr s, JStr t => Ok (String.leb t s)
  | JArr la, JArr lb =>
      (fix go (la lb : list json) {struct la} : result bool :=
         match la, lb with
         | [], [] => Ok true
         | [], _ :: _ => Ok false
         | _ :: _, [] => Ok true
         | x :: la', y :: lb' =>
             if json_eqb x y then go la' lb' else py_ge x y
         end) la lb
  | _, _ => Raise TypeError
  end.

(** ** Loading and validating the configuration *)

(** [all(k in c for k in ks)], where evaluating [c] may raise: the
    generator stops at the first key that is absent. *)
Fixpoint all_in (c : result json) (ks : list string) : result bool :=
  match ks with
  | [] => Ok true
  | k :: ks' =>
      v <- c ;;
      b <- py_in k v ;;
      if b then all_in c ks' else Ok false
  end.

(** The first loop of [_load_and_validate_config]. *)
Fixpoint check_sections (cfg : json) (keys : list string) : result unit :=
  match keys with
  | [] => Ok tt
  | key :: keys' =>
      b <- py_in key cfg ;;
      if negb b
      then Raise (ConfigError ("Missing '" ++ key ++ "' section in config."))
      else check_sections cfg keys'
  end.

Definition check_env_range (cfg : json) (name : string) : result unit :=
  b <- py_in name cfg ;;
  incomplete <-
    (if negb b then Ok true
     else (a <- all_in (py_getitem cfg name) ["min"; "max"] ;; Ok (negb a))) ;;
  if incomplete
  then Raise (ConfigError ("'" ++ name ++ "' must have min and max."))
  else
    sect <- py_getitem cfg name ;;
    lo <- py_getitem sect "min" ;;
    sect' <- py_getitem cfg name ;;
    hi <- py_getitem sect' "max" ;;
    invalid <-
      (if negb (is_int_or_float lo) then Ok true
       else if negb (is_int_or_float hi) then Ok true
       else py_ge lo hi) ;;
    if invalid
    then Raise (ConfigError
                  ("Invalid range for '" ++ name ++ "': min < max required."))
    else Ok tt.

Fixpoint check_env_ranges (cfg : json) (names : list string) : result unit :=
  match names with
  | [] => Ok tt
  | k :: names' => _ <- check_env_range cfg k ;; check_env_ranges cfg names'
  end.

(** The body of the loop over the three axes. *)
Definition check_axis (cfg : json) (axis : string) : result unit :=
  o <- py_getitem cfg "orientation" ;;
  ax <- py_getitem o axis ;;
  a <- all_in (Ok ax) ["min"; "max"] ;;
  invalid <-
    (if negb a then Ok true
     else (lo <- py_getitem ax "min" ;;
           hi <- py_getitem ax "max" ;;
           py_ge lo hi)) ;;
  if invalid
  then Raise (ConfigError ("Invalid orientation range for " ++ axis ++ "."))
  else Ok tt.

Fixpoint check_axes (cfg : json) (axes : list string) : result unit :=
  match axes with
  | [] => Ok tt
  | axis :: axes' => _ <- check_axis cfg axis ;; check_axes cfg axes'
  end.

(** [cfg.setdefault("meta", {})]. *)
Definition setdefault_meta (cfg : json) : result json :=
  match cfg with
  | JObj kvs =>
      if dict_has "meta" kvs then Ok cfg
      else Ok (JObj (kvs ++ [("meta", JObj [])]))
  | _ => Raise AttributeError
  end.

(** [file] is what [open] followed by [json.load] gives for [path]: the
    parsed document, or the text of the exception raised. *)
Definition _load_and_validate_config (path : string) (file : string + json)
  : result json :=
  match file with
  | inl e =>
      Raise (ConfigError ("Cannot read config '" ++ path ++ "': " ++ e))
  | inr cfg =>
      _ <- check_sections cfg ["temperature"; "humidity"; "pressure"; "orientation"] ;;
      _ <- check_env_ranges cfg ["temperature"; "humidity"; "pressure"] ;;
      b <- py_in "orientation" cfg ;;
      incomplete <-
        (if negb b then Ok true
         else (a <- all_in (py_getitem cfg "orientation") ["pitch"; "roll"; "yaw"] ;;
               Ok (negb a))) ;;
      if incomplete
      then Raise (ConfigError
                    "Orientation must include pitch/roll/yaw with min/max.")
      else
        _ <- check_axes cfg ["pitch"; "roll"; "yaw"] ;;
        setdefault_meta cfg
  end.

(** The document that holds the bounds of [c] and nothing else. *)
Definition json_of_range (rg : Range) : json :=
  JObj [("min", JNum (rmin rg)); ("max", JNum (rmax rg))].

Definition json_of_config (c : Config) : json :=
  JObj [("temperature", json_of_range (cfg_temperature c));
        ("humidity", json_of_range (cfg_humidity c));
        ("pressure", json_of_range (cfg_pressure c));
        ("orientation",
          JObj [("pitch", json_of_range (o_pitch (cfg_orientation c)));
                ("roll", json_of_range (o_roll (cfg_orientation c)));
                ("yaw", json_of_range (o_yaw (cfg_orientation c)))])].

(** ** The monitor object *)

Definition colour : Type := (Z * Z * Z)%type.

Definition GREEN : colour := (0, 255, 0)%Z.
Definition RED : colour := (255, 0, 0)%Z.
Definition BLUE : colour := (0, 0, 255)%Z.
Definition AMBER : colour := (255, 191, 0)%Z.
Definition WHITE : colour := (255, 255, 255)%Z.

(** Calls received by the LED matrix, oldest first. *)
Inductive LedCall :=
| show_message (text : string) (scroll_speed : Q) (text_colour : colour)
| clear.

(** Lines written to standard output; values printed through an f-string
    are kept as values. *)
Inductive Out :=
| Text (s : string)
| Tagged (tag : string) (e : exn)
| SensorReadings (r : Reading)
| Classifications (c : Classes).

(** A row of the table [sensor_logs]. *)
Record LogRow := mkLogRow
  { row_reading : Reading; row_classes : Classes; row_ts : string }.

Record Monitor := mkMonitor
  { config : Config;
    temp_offset : Q;
    poll_seconds : Z;
    rotate_seconds : Z;
    paused : bool;
    _latest : option Reading;
    _latest_classes : option Classes;
    sensor_logs : list LogRow;
    conn_open : bool;
    led : list LedCall;
    _stop : bool;
    stdout : list Out }.

Definition set_paused (m : Monitor) (b : bool) : Monitor :=
  mkMonitor (config m) (temp_offset m) (poll_seconds m) (rotate_seconds m)
    b (_latest m) (_latest_classes m) (sensor_logs m) (conn_open m)
    (led m) (_stop m) (stdout m).

Definition set_latest (m : Monitor) (r : Reading) : Monitor :=
  mkMonitor (config m) (temp_offset m) (poll_seconds m) (rotate_seconds m)
    (paused m) (Some r) (_latest_classes m) (sensor_logs m) (conn_open m)
    (led m) (_stop m) (stdout m).

Definition set_latest_classes (m : Monitor) (c : Classes) : Monitor :=
  mkMonitor (config m) (temp_offset m) (poll_seconds m) (rotate_seconds m)
    (paused m) (_latest m) (Some c) (sensor_logs m) (conn_open m)
    (led m) (_stop m) (stdout m).

Definition insert_row (m : Monitor) (row : LogRow) : Monitor :=
  mkMonitor (config m) (temp_offset m) (poll_seconds m) (rotate_seconds m)
    (paused m) (_latest m) (_latest_classes m) (sensor_logs m ++ [row])
    (conn_open m) (led m) (_stop m) (stdout m).

Definition led_call (m : Monitor) (call : LedCall) : Monitor :=
  mkMonitor (config m) (temp_offset m) (poll_seconds m) (rotate_seconds m)
    (paused m) (_latest m) (_latest_classes m) (sensor_logs m) (conn_open m)
    (led m ++ [call]) (_stop m) (stdout m).

Definition print (m : Monitor) (lines : list Out) : Monitor :=
  mkMonitor (config m) (temp_offset m) (poll_seconds m) (rotate_seconds m)
    (paused m) (_latest m) (_latest_classes m) (sensor_logs m) (conn_open m)
    (led m) (_stop m) (stdout m ++ lines).

(** ** Joystick *)

Definition ACTION_PRESSED : string := "pressed".
Definition ACTION_RELEASED : string := "released".
Definition ACTION_HELD : string := "held".

Record InputEvent := mkInputEvent { direction : string; action : string }.

Definition _on_middle_pressed (m : Monitor) (event : InputEvent) : Monitor :=
  if String.eqb (action event) ACTION_PRESSED then
    let m' := set_paused m (negb (paused m)) in
    led_call m'
      (show_message (if paused m' then "PAUSE" else "RUN") (6#100) WHITE)
  else m.

(** The callback run on each event of a sequence, in order. *)
Definition joystick (m : Monitor) (events : list InputEvent) : Monitor :=
  fold_left _on_middle_pressed events m.

(** ** The sampling loop *)

(** What one iteration of [run] meets: the sensor values, the clock, whether
    the INSERT fails (and with what), the joystick events delivered while
    the loop sleeps, and whether the sleep is cut by an interrupt.  The
    sensor calls and the sleep itself are taken to succeed, and an
    interrupt to arrive during the sleep. *)
Record Tick := mkTick
  { sense : Raw;
    utcnow : string;
    insert_error : option string;
    during_sleep : list InputEvent;
    interrupted : bool }.

Definition _log (m : Monitor) (r : Reading) (c : Classes) (t : Tick)
  : result Monitor :=
  match insert_error t with
  | Some e => Raise (OtherError e)
  | None => Ok (insert_row m (mkLogRow r c (utcnow t)))
  end.

Definition cleanup (m : Monitor) : Monitor :=
  let m1 := mkMonitor (config m) (temp_offset m) (poll_seconds m)
              (rotate_seconds m) (paused m) (_latest m) (_latest_classes m)
              (sensor_logs m) (conn_open m) (led m) true (stdout m) in
  let m2 := led_call m1 clear in
  mkMonitor (config m2) (temp_offset m2) (poll_seconds m2) (rotate_seconds m2)
    (paused m2) (_latest m2) (_latest_classes m2) (sensor_logs m2) false
    (led m2) (_stop m2) (stdout m2).

(** The body of [if not self.paused:] in [run]. *)
Definition sample (m : Monitor) (t : Tick) : Monitor * option exn :=
  let r := _read_sensors (temp_offset m) (sense t) in
  let c := _classify (config m) r in
  let m1 := set_latest_classes (set_latest m r) c in
  match _log m1 r c t with
  | Raise e => (m1, Some e)
  | Ok m2 => (print m2 [SensorReadings r; Classifications c], None)
  end.

(** [time.sleep(self.poll_seconds)] in [run]. *)
Definition poll_sleep (m : Monitor) (t : Tick) : Monitor * option exn :=
  let m' := joystick m (during_sleep t) in
  if interrupted t then (m', Some KeyboardInterrupt) else (m', None).

Inductive Outcome :=
| Running
| Finished (r : result unit).

(** The [while] loop of [run], one element of [env] per iteration. *)
Fixpoint run_loop (m : Monitor) (env : list Tick) : Monitor * Outcome :=
  match env with
  | [] => (m, Running)
  | t :: env' =>
      if _stop m then (m, Finished (Ok tt))
      else
        let (m1, e1) := if paused m then (m, None) else sample m t in
        match e1 with
        | Some e => (m1, Finished (Raise e))
        | None =>
            let (m2, e2) := poll_sleep m1 t in
            match e2 with
            | Some e => (m2, Finished (Raise e))
            | None => run_loop m2 env'
            end
        end
  end.

(** [run]: the loop, and [cleanup] in the [finally] clause. *)
Definition run (m : Monitor) (env : list Tick) : Monitor * Outcome :=
  match run_loop m env with
  | (m', Running) => (m', Running)
  | (m', Finished r) => (cleanup m', Finished r)
  end.

(** ** The display loop *)

Definition _color_for (key label : string) : colour :=
  if String.eqb key "orientation" then
    if String.eqb label "Aligned" then GREEN else AMBER
  else if String.eqb label "Comfortable" then GREEN
  else if String.eqb label "High" then RED
  else if String.eqb label "Low" then BLUE
  else WHITE.

Definition modes : list string :=
  ["temperature"; "humidity"; "pressure"; "orientation"].

(** [c[key]] on the dictionary of labels. *)
Definition class_of (c : Classes) (key : string) : result string :=
  if String.eqb key "temperature" then Ok (c_temperature c)
  else if String.eqb key "humidity" then Ok (c_humidity c)
  else if String.eqb key "pressure" then Ok (c_pressure c)
  else if String.eqb key "orientation" then Ok (c_orientation c)
  else Raise (KeyError key).

Definition digits (n : Z) : string :=
  NilZero.string_of_uint (N.to_uint (Z.to_N n)).

(** The format specifications [.0f] and [.1f]. *)
Definition fmt0 (x : Q) : string :=
  (if Qltb x 0 then "-" else "") ++ digits (Z.abs (round_half_even x)).

Definition fmt1 (x : Q) : string :=
  let n := Z.abs (round_half_even (x * 10)) in
  (if Qltb x 0 then "-" else "") ++ digits (n / 10) ++ "." ++ digits (n mod 10).

Definition display_text (key : string) (r : Reading) : string :=
  if String.eqb key "temperature" then "T:" ++ fmt1 (temperature r)
  else if String.eqb key "humidity" then "H:" ++ fmt1 (humidity r)
  else if String.eqb key "pressure" then "P:" ++ fmt0 (pressure r)
  else "P:" ++ fmt0 (pitch r) ++ "/R:" ++ fmt0 (roll r) ++ "/Y:" ++ fmt0 (yaw r).

(** The argument of [time.sleep] in [_display_loop]. *)
Definition display_sleep (m : Monitor) : Q :=
  py_max (2#10) (inject_Z (rotate_seconds m) * (2#10)).

(** ** The two threads, statement by statement

    [run] executes on the main thread and [_display_loop] on a thread of
    its own; both work on the attributes of the same object, and the
    joystick callback is dispatched from a third.  A thread is its program
    point; a schedule says which thread executes its next statement.  The
    tuple assignment [self._latest, self._latest_classes = r, c] stores its
    two targets from left to right. *)

Inductive SPc :=
| S_top
| S_store_latest (r : Reading) (c : Classes)
| S_store_classes (r : Reading) (c : Classes)
| S_log (r : Reading) (c : Classes)
| S_print (r : Reading) (c : Classes)
| S_sleep
| S_done (o : result unit).

Inductive DPc :=
| D_top
| D_key (key : string)
| D_class (key c : string)
| D_colour (key c : string) (col : colour)
| D_reading (key c : string) (col : colour) (r : option Reading)
| D_sleep
| D_done (o : result unit).

Record System := mkSystem
  { mon : Monitor; spc : SPc; dpc : DPc; idx : nat }.

(** The next statement of [run]: the test of the loop and of the pause
    flag with the reading and its classification, the first store, the
    second store, [_log], the two [print]s, the sleep. *)
Definition sampler_step (t : Tick) (s : System) : System :=
  let m := mon s in
  match spc s with
  | S_top =>
      if _stop m then mkSystem (cleanup m) (S_done (Ok tt)) (dpc s) (idx s)
      else if paused m then mkSystem m S_sleep (dpc s) (idx s)
      else
        let r := _read_sensors (temp_offset m) (sense t) in
        let c := _classify (config m) r in
        mkSystem m (S_store_latest r c) (dpc s) (idx s)
  | S_store_latest r c =>
      mkSystem (set_latest m r) (S_store_classes r c) (dpc s) (idx s)
  | S_store_classes r c =>
      mkSystem (set_latest_classes m c) (S_log r c) (dpc s) (idx s)
  | S_log r c =>
      match _log m r c t with
      | Raise e => mkSystem (cleanup m) (S_done (Raise e)) (dpc s) (idx s)
      | Ok m' => mkSystem m' (S_print r c) (dpc s) (idx s)
      end
  | S_print r c =>
      mkSystem (print m [SensorReadings r; Classifications c]) S_sleep
        (dpc s) (idx s)
  | S_sleep =>
      if interrupted t
      then mkSystem (cleanup m) (S_done (Raise KeyboardInterrupt)) (dpc s) (idx s)
      else mkSystem m S_top (dpc s) (idx s)
  | S_done _ => s
  end.

(** The next statement of [_display_loop]: the test of the loop and of
    the attributes with the choice of the mode, the read of the label, the
    call of [_color_for], the read of the reading, the message and
    [show_message], the sleep. *)
Definition display_step (s : System) : System :=
  let m := mon s in
  match dpc s with
  | D_top =>
      if _stop m then mkSystem m (spc s) (D_done (Ok tt)) (idx s)
      else
        match _latest m, _latest_classes m with
        | Some _, Some _ =>
            if negb (paused m)
            then mkSystem m (spc s)
                   (D_key (nth (Nat.modulo (idx s) (List.length modes)) modes ""))
                   (idx s)
            else mkSystem m (spc s) D_sleep (idx s)
        | _, _ => mkSystem m (spc s) D_sleep (idx s)
        end
  | D_key key =>
      match _latest_classes m with
      | None => mkSystem m (spc s) (D_done (Raise TypeError)) (idx s)
      | Some cs =>
          match class_of cs key with
          | Ok c => mkSystem m (spc s) (D_class key c) (idx s)
          | Raise e => mkSystem m (spc s) (D_done (Raise e)) (idx s)
          end
      end
  | D_class key c =>
      mkSystem m (spc s) (D_colour key c (_color_for key c)) (idx s)
  | D_colour key c col =>
      mkSystem m (spc s) (D_reading key c col (_latest m)) (idx s)
  | D_reading key c col None =>
      mkSystem m (spc s) (D_done (Raise TypeError)) (idx s)
  | D_reading key c col (Some r) =>
      mkSystem (led_call m (show_message (display_text key r) (6#100) col))
        (spc s) D_sleep (S (idx s))
  | D_sleep => mkSystem m (spc s) D_top (idx s)
  | D_done _ => s
  end.

Inductive Sched :=
| RunSampler (t : Tick)
| RunDisplay
| Joystick (e : InputEvent).

Definition step (s : System) (x : Sched) : System :=
  match x with
  | RunSampler t => sampler_step t s
  | RunDisplay => display_step s
  | Joystick e => mkSystem (_on_middle_pressed (mon s) e) (spc s) (dpc s) (idx s)
  end.

Definition exec (s : System) (schedule : list Sched) : System :=
  fold_left step schedule s.

(** The system right after [__init__]: nothing published yet. *)
Definition boot (m : Monitor) : System := mkSystem m S_top D_top 0.

(** A display call shows a reading with the colour of a label; the pair is
    matched when the label is the one [_classify] gives that reading for
    the mode on display, as in every pair stored by one publish. *)
Definition matched (cfg : Config) (key : string) (r : Reading) (c : string)
  : Prop :=
  class_of (_classify cfg r) key = Ok c.

(** ** The entry point *)

(** The names bound at module level by the [import] statements and the
    definitions of [TaskA/SensorMonitor.py]. *)
Definition module_names : list string :=
  ["json"; "sqlite3"; "time"; "threading"; "datetime"; "SenseHat";
   "ACTION_PRESSED"; "DB_PATH"; "CONFIG_PATH"; "GREEN"; "RED"; "BLUE";
   "AMBER"; "WHITE"; "ConfigError"; "SensorMonitor"; "main"].

(** Evaluating [sys.exit(code)]: the name [sys] is looked up first. *)
Definition sys_exit (code : Z) : exn :=
  if existsb (String.eqb "sys") module_names
  then SystemExit code
  else NameError "sys".

(** [except Exception] does not catch the exceptions that derive from
    [BaseException] only. *)
Definition is_Exception (e : exn) : bool :=
  match e with
  | SystemExit _ | KeyboardInterrupt => false
  | _ => true
  end.

(** [main], given what the constructor [SensorMonitor()] does and what the
    sampling loop then meets: the lines printed and how the call ends. *)
Definition main (ctor : result Monitor) (env : list Tick)
  : list Out * Outcome :=
  match ctor with
  | Raise (ConfigError msg) =>
      ([Tagged "[CONFIG ERROR]" (ConfigError msg)],
       Finished (Raise (sys_exit 2)))
  | Raise e =>
      if is_Exception e
      then ([Tagged "[STARTUP ERROR]" e], Finished (Raise (sys_exit 1)))
      else ([], Finished (Raise e))
  | Ok monitor =>
      match run monitor env with
      | (m, Running) => (stdout m, Running)
      | (m, Finished (Raise KeyboardInterrupt)) =>
          ((stdout (cleanup m) ++ [Text (String "010" "Exiting...")])%list,
           Finished (Ok tt))
      | (m, Finished r) => (stdout m, Finished r)
      end
  end.

(** The exit status of the interpreter: the code of [SystemExit], 0 when
    the script runs to its end, 1 after a traceback.  An interrupt that
    nothing catches ends the process in a way that depends on the version
    of the interpreter. *)
Definition exit_status (o : Outcome) : option Z :=
  match o with
  | Running => None
  | Finished (Ok _) => Some 0%Z
  | Finished (Raise (SystemExit code)) => Some code
  | Finished (Raise KeyboardInterrupt) => None
  | Finished (Raise _) => Some 1%Z
  end.

(** ** Vocabulary of the statements *)

(** The classification rule of the design document, in its words: [Low]
    iff below [lo], [High] iff above [hi], [Comfortable] otherwise, the two
    boundary values being [Comfortable]. *)
Definition bucket_spec (v lo hi : Q) : Prop :=
  (_bucket v lo hi = "Low" <-> v < lo) /\
  (_bucket v lo hi = "High" <-> hi < v) /\
  (_bucket v lo hi = "Comfortable" <-> ~ v < lo /\ ~ hi < v) /\
  (v == lo -> _bucket v lo hi = "Comfortable") /\
  (v == hi -> _bucket v lo hi = "Comfortable").

(** [x] lies in the inclusive interval of [rg]. *)
Definition in_range (rg : Range) (x : Q) : Prop :=
  rmin rg <= x /\ x <= rmax rg.

Definition all_in_range (o : Orientation) (r : Reading) : Prop :=
  in_range (o_pitch o) (pitch r) /\
  in_range (o_roll o) (roll r) /\
  in_range (o_yaw o) (yaw r).


(** A press of the joystick, and the number of presses in a sequence. *)
Definition pressed (e : InputEvent) : bool :=
  String.eqb (action e) ACTION_PRESSED.

Definition presses (events : list InputEvent) : nat :=
  List.length (filter pressed events).

(** The scenario of the design document: its thresholds, the default
    tunables, nothing published yet. *)
Definition scenario_config : Config :=
  mkConfig (mkRange 18 26) (mkRange 30 60) (mkRange 990 1020)
    (mkOrientation (mkRange (-10) 10) (mkRange (-10) 10) (mkRange (-180) 180)).

Definition scenario_monitor : Monitor :=
  mkMonitor scenario_config (-(15#10)) 10 5 false None None [] true [] false [].

Definition scenario_tick (raw_temperature : Q) (failure : option string) : Tick :=
  mkTick (mkRaw raw_temperature 45 1000 0 0 0) "2024-01-01 00:00:00"
    failure [] false.

(** [SensorMonitor()] up to the loading of the configuration: the Sense HAT
    is opened, the configuration is loaded and validated, and [rest] stands
    for the remainder of [__init__] (tunables, database, display thread). *)
Definition construct (sense_hat : result unit) (path : string)
  (file : string + json) (rest : json -> result Monitor) : result Monitor :=
  _ <- sense_hat ;;
  cfg <- _load_and_validate_config path file ;;
  rest cfg.

(** Every range of a configuration has [min < max]. *)
Definition valid_range (rg : Range) : Prop := rmin rg < rmax rg.

Definition valid_config (c : Config) : Prop :=
  valid_range (cfg_temperature c) /\
  valid_range (cfg_humidity c) /\
  valid_range (cfg_pressure c) /\
  valid_range (o_pitch (cfg_orientation c)) /\
  valid_range (o_roll (cfg_orientation c)) /\
  valid_range (o_yaw (cfg_orientation c)).

(** The document of the scenario with the bounds of one range replaced. *)
Definition document (temperature_range pitch_range : json) : json :=
  JObj [("temperature", temperature_range);
        ("humidity", JObj [("min", JNum 30); ("max", JNum 60)]);
        ("pressure", JObj [("min", JNum 990); ("max", JNum 1020)]);
        ("orientation",
          JObj [("pitch", pitch_range);
                ("roll", JObj [("min", JNum (-10)); ("max", JNum 10)]);
                ("yaw", JObj [("min", JNum (-180)); ("max", JNum 180)])])].

Definition with_meta (cfg : json) : json :=
  match cfg with
  | JObj kvs => JObj (kvs ++ [("meta", JObj [])])
  | _ => cfg
  end.

(** The sampling thread stands between the two stores of a publish. *)
Definition mid_publish (pc : SPc) : bool :=
  match pc with
  | S_store_classes _ _ => true
  | _ => false
  end.

(** The two attributes hold a reading and the labels of that reading, or
    nothing yet. *)
Definition paired_store (m : Monitor) : Prop :=
  match _latest m, _latest_classes m with
  | Some r, Some c => c = _classify (config m) r
  | None, None => True
  | _, _ => False
  end.

(** What holds of the shared attributes at each point of the sampling
    thread. *)
Definition store_invariant (cfg : Config) (s : System) : Prop :=
  config (mon s) = cfg /\
  match spc s with
  | S_store_latest r c => c = _classify cfg r /\ paired_store (mon s)
  | S_store_classes r c => c = _classify cfg r /\ _latest (mon s) = Some r
  | _ => paired_store (mon s)
  end.

(** One iteration of the display loop, from its test to its call of
    [show_message], with no other thread in between. *)
Definition display_tick : list Sched :=
  [RunDisplay; RunDisplay; RunDisplay; RunDisplay; RunDisplay].

(** A schedule in which a publish falls between the two reads of a display
    iteration.  The first tick runs to its sleep; the second tick has read
    the sensors when the display loop tests the attributes and reads the
    label; the second tick performs its two stores; the display loop reads
    the reading and shows it. *)
Definition racing_schedule (t1 t2 : Tick) : list Sched :=
  [RunSampler t1; RunSampler t1; RunSampler t1;
   RunSampler t1; RunSampler t1; RunSampler t1;
   RunSampler t2;
   RunDisplay; RunDisplay; RunDisplay;
   RunSampler t2; RunSampler t2;
   RunDisplay; RunDisplay].

(** ** The tunables read by [__init__] *)

(** [d.get(k, default)]: a method of dictionaries only. *)
Definition py_get (d : json) (k : string) (default : json) : result json :=
  match d with
  | JObj kvs =>
      Ok (match dict_get k kvs with Some v => v | None => default end)
  | _ => Raise AttributeError
  end.

(** [int(x)] on a number cuts the fractional part, towards zero. *)
Definition truncate (q : Q) : Z := Z.quot (Qnum q) (Zpos (Qden q)).

Section Tunables.

(** What [float(s)] and [int(s)] answer on a string, the two parsers of
    the interpreter. *)
Variable float_of_str : string -> result number.
Variable int_of_str : string -> result Z.

Definition py_float (v : json) : result number :=
  match v with
  | JNum q => Ok (Fin q)
  | JNonFinite x => Ok (NonFin x)
  | JBool b => Ok (Fin (if b then 1 else 0))
  | JStr s => float_of_str s
  | JNull | JArr _ | JObj _ => Raise TypeError
  end.

(** [int] of [nan] is a [ValueError], of an infinity an [OverflowError]. *)
Definition py_int (v : json) : result Z :=
  match v with
  | JNum q => Ok (truncate q)
  | JNonFinite NaN => Raise ValueError
  | JNonFinite _ => Raise OverflowError
  | JBool b => Ok (if b then 1%Z else 0%Z)
  | JStr s => int_of_str s
  | JNull | JArr _ | JObj _ => Raise TypeError
  end.

(** Lines 25 to 28 of [__init__], on the configuration that
    [_load_and_validate_config] returned: the calibration offset, the poll
    interval and the rotation interval. *)
Definition init_tunables (cfg : json) : result (number * Z * Z) :=
  meta <- py_get cfg "meta" (JObj []) ;;
  a <- py_get meta "temperature_calibration_offset" (JNum (-(15#10))) ;;
  temp_offset <- py_float a ;;
  b <- py_get meta "poll_seconds" (JNum 10) ;;
  poll_seconds <- py_int b ;;
  c <- py_get meta "rotate_seconds" (JNum 5) ;;
  rotate_seconds <- py_int c ;;
  Ok (temp_offset, poll_seconds, rotate_seconds).

End Tunables.

(** ** Iterations of the display loop *)

(** The display thread alone, from the statement after the test of the
    loop until it is back at the test, or has ended. *)
Fixpoint display_until_top (fuel : nat) (s : System) : System :=
  match fuel with
  | O => s
  | S fuel' =>
      match dpc s with
      | D_top | D_done _ => s
      | _ => display_until_top fuel' (display_step s)
      end
  end.

Definition display_iteration (s : System) : System :=
  display_until_top 5 (display_step s).

(** The mode on display at rotation index [j]. *)
Definition mode_at (j : nat) : string :=
  nth (Nat.modulo j (List.length modes)) modes "".

(** The call that an iteration makes at rotation index [j] for the pair
    [(r, cs)]. *)
Definition shown (r : Reading) (cs : Classes) (j : nat) : LedCall :=
  show_message (display_text (mode_at j) r) (6#100)
    (_color_for (mode_at j)
       (match class_of cs (mode_at j) with Ok c => c | Raise _ => "" end)).

(** ** Rows and quiet ticks *)

(** A row carries the labels of its own reading. *)
Definition row_ok (cfg : Config) (row : LogRow) : Prop :=
  row_classes row = _classify cfg (row_reading row).


(** The acknowledgement shown when the pause flag becomes [b]. *)
Definition acknowledgement (b : bool) : LedCall :=
  show_message (if b then "PAUSE" else "RUN") (6#100) WHITE.

(** ** The display of the single-loop script *)

Module LegacyDisplay.

(** The dictionary [colors] of [display_status]. *)
Definition colors : list (string * colour) :=
  [("Low", (255, 0, 0)%Z);
   ("Comfortable", (0, 255, 0)%Z);
   ("High", (0, 0, 255)%Z);
   ("Tilted", (255, 165, 0)%Z);
   ("Aligned", (0, 255, 255)%Z)].

(** [colors[label]]. *)
Fixpoint lookup (label : string) (d : list (string * colour)) : result colour :=
  match d with
  | [] => Raise (KeyError label)
  | (k, v) :: d' => if String.eqb label k then Ok v else lookup label d'
  end.

(** The two calls of [show_message], with the default scroll speed of the
    Sense HAT library: the calls made, and how the function ends.  The
    second colour is looked up after the first message has been shown. *)
Definition display_status
  (temp_class humidity_class pressure_class orientation_class : string)
  : list LedCall * result unit :=
  match lookup temp_class colors with
  | Raise e => ([], Raise e)
  | Ok c1 =>
      let first :=
        show_message
          ("Temp: " ++ temp_class ++ ", Humidity: " ++ humidity_class)
          (1#10) c1 in
      match lookup orientation_class colors with
      | Raise e => ([first], Raise e)
      | Ok c2 =>
          ([first;
            show_message
              ("Pressure: " ++ pressure_class ++ ", Orientation: "
                 ++ orientation_class)
              (1#10) c2],
           Ok tt)
      end
  end.

End LegacyDisplay.

(** The two kinds of failure of the loader. *)
Definition config_or_type_error (e : exn) : Prop :=
  match e with
  | ConfigError _ | TypeError => True
  | _ => False
  end.

(** The published pair is the one of the last row of the table, or nothing
    has been published and the table is empty. *)
Definition synced (m : Monitor) : Prop :=
  match rev (sensor_logs m) with
  | [] => _latest m = None /\ _latest_classes m = None
  | row :: _ =>
      _latest m = Some (row_reading row) /\
      _latest_classes m = Some (row_classes row)
  end.

(** ** The scalar classifiers on any float

    [_bucket] of the threaded monitor and the three scalar classifiers of
    the single-loop script, on values and bounds that may be [inf], [-inf]
    or [nan].  On finite numbers they are the definitions above. *)

Module AnyFloat.

Definition _bucket (v lo hi : number) : string :=
  if num_ltb v lo then "Low"
  else if num_ltb hi v then "High"
  else "Comfortable".

Record Globals := mkGlobals
  { min_temp : number; max_temp : number;
    min_humidity : number; max_humidity : number;
    min_pressure : number; max_pressure : number }.

Definition classify_temperature (g : Globals) (temp : number) : string :=
  if num_ltb temp (min_temp g) then "Low"
  else if num_leb (min_temp g) temp && num_leb temp (max_temp g)
       then "Comfortable"
  else "High".

Definition classify_humidity (g : Globals) (humidity : number) : string :=
  if num_ltb humidity (min_humidity g) then "Low"
  else if num_leb (min_humidity g) humidity && num_leb humidity (max_humidity g)
       then "Comfortable"
  else "High".

Definition classify_pressure (g : Globals) (pressure : number) : string :=
  if num_ltb pressure (min_pressure g) then "Low"
  else if num_leb (min_pressure g) pressure && num_leb pressure (max_pressure g)
       then "Comfortable"
  else "High".

(** The bounds of the single-loop script when they are finite. *)
Definition of_finite (g : Legacy.Globals) : Globals :=
  mkGlobals (Fin (Legacy.min_temp g)) (Fin (Legacy.max_temp g))
    (Fin (Legacy.min_humidity g)) (Fin (Legacy.max_humidity g))
    (Fin (Legacy.min_pressure g)) (Fin (Legacy.max_pressure g)).

End AnyFloat.

(** * Properties *)

(** ** Comparisons and rounding *)

Lemma Qleb_le (a b : Q) : Qleb a b = true <-> a <= b.
Proof. apply Qle_bool_iff. Qed.

Lemma Qltb_lt (a b : Q) : Qltb a b = true <-> a < b.
Proof.
  unfold Qltb. rewrite negb_true_iff. split; intro H.
  - apply Qnot_le_lt. intro L. apply Qle_bool_iff in L. congruence.
  - destruct (Qle_bool b a) eqn:E; [|reflexivity].
    apply Qle_bool_iff in E. exfalso. exact (Qlt_not_le _ _ H E).
Qed.

Lemma Qltb_ge (a b : Q) : Qltb a b = false <-> b <= a.
Proof.
  unfold Qltb. rewrite negb_false_iff. apply Qle_bool_iff.
Qed.

Lemma Qleb_gt (a b : Q) : Qleb a b = false <-> b < a.
Proof.
  rewrite <- Qltb_lt. unfold Qltb, Qleb.
  destruct (Qle_bool a b); simpl; intuition congruence.
Qed.

(** Case analysis on a comparison, with the order fact in the context. *)
Ltac cmp a b :=
  let E := fresh "E" in
  destruct (Qltb a b) eqn:E;
  [apply Qltb_lt in E | apply Qltb_ge in E].

Ltac cmple a b :=
  let E := fresh "E" in
  destruct (Qleb a b) eqn:E;
  [apply Qleb_le in E | apply Qleb_gt in E].

Ltac absurd_order :=
  match goal with
  | H1 : ?a < ?b, H2 : ?b <= ?a |- _ => exfalso; exact (Qlt_not_le _ _ H1 H2)
  | H1 : ?a < ?b, H2 : ?b < ?a |- _ =>
      exfalso; exact (Qlt_not_le _ _ H1 (Qlt_le_weak _ _ H2))
  | H : ?a < ?a |- _ => exfalso; exact (Qlt_irrefl _ H)
  end.

#[global] Instance Qltb_proper : Proper (Qeq ==> Qeq ==> eq) Qltb.
Proof.
  intros a a' Ha b b' Hb. unfold Qltb. now rewrite Ha, Hb.
Qed.

#[global] Instance Qleb_proper : Proper (Qeq ==> Qeq ==> eq) Qleb.
Proof.
  intros a a' Ha b b' Hb. unfold Qleb. now rewrite Ha, Hb.
Qed.

#[global] Instance round_half_even_proper : Proper (Qeq ==> eq) round_half_even.
Proof.
  intros x y H. unfold round_half_even.
  rewrite (Qfloor_comp _ _ H).
  assert (F : x - inject_Z (Qfloor y) == y - inject_Z (Qfloor y))
    by now rewrite H.
  rewrite (Qltb_proper _ _ F _ _ (Qeq_refl (1#2))).
  rewrite (Qltb_proper _ _ (Qeq_refl (1#2)) _ _ F).
  reflexivity.
Qed.

#[global] Instance round1_proper : Proper (Qeq ==> eq) round1.
Proof.
  intros x y H. unfold round1.
  assert (F : x * 10 == y * 10) by now rewrite H.
  now rewrite (round_half_even_proper _ _ F).
Qed.

#[global] Instance bucket_proper : Proper (Qeq ==> Qeq ==> Qeq ==> eq) _bucket.
Proof.
  intros v v' Hv lo lo' Hlo hi hi' Hhi. unfold _bucket.
  rewrite (Qltb_proper _ _ Hv _ _ Hlo), (Qltb_proper _ _ Hhi _ _ Hv).
  reflexivity.
Qed.

(** ** The scalar classifier *)

Lemma bucket_low (v lo hi : Q) : _bucket v lo hi = "Low" <-> v < lo.
Proof.
  unfold _bucket. cmp v lo.
  - tauto.
  - cmp hi v; split; intro H; try discriminate; absurd_order.
Qed.

Lemma bucket_high (v lo hi : Q) :
  _bucket v lo hi = "High" <-> lo <= v /\ hi < v.
Proof.
  unfold _bucket. cmp v lo.
  - split; [discriminate | intros [L _]; absurd_order].
  - cmp hi v; split; try discriminate; try tauto.
    intros [_ L]. absurd_order.
Qed.

Lemma bucket_comfortable (v lo hi : Q) :
  _bucket v lo hi = "Comfortable" <-> lo <= v /\ v <= hi.
Proof.
  unfold _bucket. cmp v lo.
  - split; [discriminate | intros [L _]; absurd_order].
  - cmp hi v; split; try discriminate; try tauto.
    intros [_ L]. absurd_order.
Qed.

Lemma bucket_cases (v lo hi : Q) :
  _bucket v lo hi = "Low" \/ _bucket v lo hi = "High" \/
  _bucket v lo hi = "Comfortable".
Proof.
  unfold _bucket. destruct (Qltb v lo); [|destruct (Qltb hi v)]; auto.
Qed.

(** C1: for every value [v] and thresholds [lo <= hi] (the ranges that
    reach [_bucket] have passed [check_env_range], hence [min < max]),
    [_bucket] returns [Low] iff [v < lo], [High] iff [v > hi],
    [Comfortable] otherwise, and the two boundary values [v == lo] and
    [v == hi] are [Comfortable]. *)
Theorem bucket_spec_ordered (v lo hi : Q) : lo <= hi -> bucket_spec v lo hi.
Proof.
  intro O. unfold bucket_spec.
  split; [apply bucket_low|].
  split.
  { rewrite bucket_high. split; [tauto|].
    intro H. split; [|exact H].
    apply Qle_trans with hi; [exact O | now apply Qlt_le_weak]. }
  split.
  { rewrite bucket_comfortable. split.
    - intros [A B]. split; intro L; absurd_order.
    - intros [A B]. split; now apply Qnot_lt_le. }
  split; intro E; apply bucket_comfortable; rewrite E.
  - split; [apply Qle_refl | exact O].
  - split; [exact O | apply Qle_refl].
Qed.

Lemma bucket_spec_ordered_witness : 18 <= 26 /\ bucket_spec (258#10) 18 26.
Proof.
  split; [discriminate | apply (bucket_spec_ordered (258#10) 18 26); discriminate].
Defined.

(** ** The older script against the threaded monitor *)

Lemma legacy_rule_is_bucket (v lo hi : Q) :
  (if Qltb v lo then "Low"
   else if Qleb lo v && Qleb v hi then "Comfortable"
   else "High") = _bucket v lo hi.
Proof.
  unfold _bucket. cmp v lo; [reflexivity|].
  assert (L : Qleb lo v = true) by now apply Qleb_le.
  rewrite L. simpl. unfold Qltb, Qleb.
  destruct (Qle_bool v hi); reflexivity.
Qed.

(** On finite numbers [classify_temperature], [classify_humidity] and
    [classify_pressure] of the single-loop script return the label that
    [_bucket] of the threaded monitor returns for the same value and
    bounds. *)
Theorem legacy_scalar_classifiers_agree (g : Legacy.Globals) (v : Q) :
  Legacy.min_temp g < Legacy.max_temp g ->
  Legacy.min_humidity g < Legacy.max_humidity g ->
  Legacy.min_pressure g < Legacy.max_pressure g ->
  Legacy.classify_temperature g v
    = _bucket v (Legacy.min_temp g) (Legacy.max_temp g) /\
  Legacy.classify_humidity g v
    = _bucket v (Legacy.min_humidity g) (Legacy.max_humidity g) /\
  Legacy.classify_pressure g v
    = _bucket v (Legacy.min_pressure g) (Legacy.max_pressure g).
Proof.
  intros _ _ _.
  unfold Legacy.classify_temperature, Legacy.classify_humidity,
    Legacy.classify_pressure.
  repeat split; apply legacy_rule_is_bucket.
Qed.

Lemma legacy_scalar_classifiers_agree_witness :
  let g := Legacy.mkGlobals 18 26 30 60 990 1020 10 10 180 in
  Legacy.classify_temperature g (258#10) = _bucket (258#10) 18 26 /\
  Legacy.classify_humidity g (258#10) = _bucket (258#10) 30 60 /\
  Legacy.classify_pressure g (258#10) = _bucket (258#10) 990 1020.
Proof.
  intro g.
  apply (legacy_scalar_classifiers_agree g (258#10)); reflexivity.
Defined.

(** ** Orientation *)

Lemma within_in_range (rg : Range) (x : Q) :
  within rg x = true <-> in_range rg x.
Proof.
  unfold within, in_range. rewrite andb_true_iff, !Qleb_le. tauto.
Qed.

Lemma aligned_all_in_range (o : Orientation) (r : Reading) :
  aligned o r = true <-> all_in_range o r.
Proof.
  unfold aligned, all_in_range.
  rewrite !andb_true_iff, !within_in_range. tauto.
Qed.



(** ** The sleep of the display loop *)

Lemma py_max_Qmax (a b : Q) : py_max a b == Qmax a b.
Proof.
  unfold py_max. cmp a b.
  - symmetry. apply Q.max_r. now apply Qlt_le_weak.
  - symmetry. now apply Q.max_l.
Qed.

(** C8: whatever [rotate_seconds] is, the display loop sleeps
    [max(0.2, rotate_seconds * 0.2)] seconds between two iterations, which
    is never less than 0.2. *)
Theorem display_sleep_floor (m : Monitor) :
  display_sleep m == Qmax (2#10) (inject_Z (rotate_seconds m) * (2#10)) /\
  2#10 <= display_sleep m.
Proof.
  unfold display_sleep. split.
  - apply py_max_Qmax.
  - unfold py_max. cmp (2#10) (inject_Z (rotate_seconds m) * (2#10)).
    + now apply Qlt_le_weak.
    + apply Qle_refl.
Qed.

(** ** The joystick *)

Lemma on_middle_pressed_press (m : Monitor) (e : InputEvent) :
  pressed e = true ->
  paused (_on_middle_pressed m e) = negb (paused m) /\
  led (_on_middle_pressed m e)
    = (led m ++ [show_message (if negb (paused m) then "PAUSE" else "RUN")
                   (6#100) WHITE])%list.
Proof.
  unfold pressed, _on_middle_pressed. intros ->. simpl. auto.
Qed.

Lemma on_middle_pressed_other (m : Monitor) (e : InputEvent) :
  pressed e = false -> _on_middle_pressed m e = m.
Proof.
  unfold pressed, _on_middle_pressed. now intros ->.
Qed.

Lemma on_middle_pressed_frame (m : Monitor) (e : InputEvent) :
  let m' := _on_middle_pressed m e in
  config m' = config m /\ temp_offset m' = temp_offset m /\
  _latest m' = _latest m /\ _latest_classes m' = _latest_classes m /\
  sensor_logs m' = sensor_logs m /\ _stop m' = _stop m /\
  stdout m' = stdout m /\ conn_open m' = conn_open m.
Proof.
  unfold _on_middle_pressed.
  destruct (String.eqb (action e) ACTION_PRESSED); simpl; tauto.
Qed.

Lemma joystick_frame (events : list InputEvent) (m : Monitor) :
  let m' := joystick m events in
  config m' = config m /\ temp_offset m' = temp_offset m /\
  _latest m' = _latest m /\ _latest_classes m' = _latest_classes m /\
  sensor_logs m' = sensor_logs m /\ _stop m' = _stop m /\
  stdout m' = stdout m /\ conn_open m' = conn_open m.
Proof.
  unfold joystick. revert m.
  induction events as [|e events IH]; intro m; simpl.
  - tauto.
  - specialize (IH (_on_middle_pressed m e)).
    pose proof (on_middle_pressed_frame m e) as F. simpl in *.
    repeat match goal with H : _ /\ _ |- _ => destruct H end.
    repeat split; congruence.
Qed.

Lemma joystick_paused (events : list InputEvent) (m : Monitor) :
  paused (joystick m events) = Nat.iter (presses events) negb (paused m).
Proof.
  unfold joystick, presses. revert m.
  induction events as [|e events IH]; intro m; simpl.
  - reflexivity.
  - rewrite IH. destruct (pressed e) eqn:P.
    + destruct (on_middle_pressed_press m e P) as [-> _]. simpl.
      clear. induction (List.length (filter pressed events)); simpl; congruence.
    + now rewrite (on_middle_pressed_other m e P).
Qed.

Lemma joystick_led (events : list InputEvent) (m : Monitor) :
  List.length (led (joystick m events))
    = (List.length (led m) + presses events)%nat.
Proof.
  unfold joystick, presses. revert m.
  induction events as [|e events IH]; intro m; simpl.
  - lia.
  - rewrite IH. destruct (pressed e) eqn:P.
    + destruct (on_middle_pressed_press m e P) as [_ ->].
      rewrite length_app. simpl. lia.
    + rewrite (on_middle_pressed_other m e P). lia.
Qed.

(** C7: over any sequence of joystick events the pause flag is flipped
    once per press: after the sequence it is the initial flag negated as
    many times as there are presses, and exactly that many acknowledgements
    have been shown; a release or a hold changes nothing, one press negates
    the flag and two presses restore it. *)
Theorem pause_toggles_once_per_press (m : Monitor) (events : list InputEvent) :
  paused (joystick m events) = Nat.iter (presses events) negb (paused m) /\
  List.length (led (joystick m events))
    = (List.length (led m) + presses events)%nat /\
  (forall d, _on_middle_pressed m (mkInputEvent d ACTION_RELEASED) = m) /\
  (forall d, _on_middle_pressed m (mkInputEvent d ACTION_HELD) = m) /\
  (forall d, paused (_on_middle_pressed m (mkInputEvent d ACTION_PRESSED))
             = negb (paused m)) /\
  (forall d d', paused (joystick m [mkInputEvent d ACTION_PRESSED;
                                    mkInputEvent d' ACTION_PRESSED])
                = paused m).
Proof.
  split; [apply joystick_paused|].
  split; [apply joystick_led|].
  repeat split; intros; try reflexivity.
  simpl. now rewrite negb_involutive.
Qed.

(** ** The sampling loop *)

Lemma cleanup_frame (m : Monitor) :
  config (cleanup m) = config m /\
  _latest (cleanup m) = _latest m /\
  _latest_classes (cleanup m) = _latest_classes m /\
  sensor_logs (cleanup m) = sensor_logs m /\
  stdout (cleanup m) = stdout m /\
  paused (cleanup m) = paused m /\
  _stop (cleanup m) = true /\
  conn_open (cleanup m) = false.
Proof. unfold cleanup. simpl. tauto. Qed.

Lemma sample_publishes (m : Monitor) (t : Tick) :
  let r := _read_sensors (temp_offset m) (sense t) in
  _latest (fst (sample m t)) = Some r /\
  _latest_classes (fst (sample m t)) = Some (_classify (config m) r).
Proof.
  unfold sample, _log. destruct (insert_error t); simpl; auto.
Qed.

Lemma sample_logs (m : Monitor) (t : Tick) :
  insert_error t = None ->
  let r := _read_sensors (temp_offset m) (sense t) in
  snd (sample m t) = None /\
  sensor_logs (fst (sample m t))
    = (sensor_logs m ++ [mkLogRow r (_classify (config m) r) (utcnow t)])%list.
Proof.
  unfold sample, _log. intros ->. simpl. auto.
Qed.

Lemma run_one_tick_publishes (m : Monitor) (t : Tick) :
  paused m = false -> _stop m = false ->
  let r := _read_sensors (temp_offset m) (sense t) in
  _latest (fst (run m [t])) = Some r /\
  _latest_classes (fst (run m [t])) = Some (_classify (config m) r).
Proof.
  intros P S. unfold run, run_loop. rewrite P, S.
  unfold sample, _log, poll_sleep.
  destruct (insert_error t); simpl; [auto|].
  match goal with |- context [joystick ?x ?ev] =>
    pose proof (joystick_frame ev x) as F end.
  simpl in F. destruct F as (_ & _ & F1 & F2 & _).
  destruct (interrupted t); simpl; rewrite ?F1, ?F2; auto.
Qed.

(** C4: on a tick that is not paused the temperature published is the raw
    temperature plus the calibration offset, rounded to one decimal after
    the addition, and it is that value which is classified; with the
    bounds 18 and 26, a raw temperature of 27.3 and an offset of -1.5 the
    temperature stored is 25.8 and its label is [Comfortable]. *)
Theorem calibration_offset_before_rounding (m : Monitor) (t : Tick) :
  paused m = false -> _stop m = false ->
  let r := _read_sensors (temp_offset m) (sense t) in
  let c := _classify (config m) r in
  _latest (fst (run m [t])) = Some r /\
  _latest_classes (fst (run m [t])) = Some c /\
  temperature r = round1 (get_temperature (sense t) + temp_offset m) /\
  c_temperature c
    = _bucket (round1 (get_temperature (sense t) + temp_offset m))
        (rmin (cfg_temperature (config m))) (rmax (cfg_temperature (config m))) /\
  (rmin (cfg_temperature (config m)) == 18 ->
   rmax (cfg_temperature (config m)) == 26 ->
   get_temperature (sense t) == 273#10 ->
   temp_offset m == -(15#10) ->
   temperature r == 258#10 /\ c_temperature c = "Comfortable").
Proof.
  intros P S r c.
  destruct (run_one_tick_publishes m t P S) as [L C].
  split; [exact L|]. split; [exact C|].
  split; [reflexivity|]. split; [reflexivity|].
  intros Hlo Hhi Hraw Hoff. subst c r. simpl.
  assert (E : get_temperature (sense t) + temp_offset m == (273#10) + -(15#10))
    by now rewrite Hraw, Hoff.
  rewrite (round1_proper _ _ E).
  rewrite (bucket_proper _ _ (Qeq_refl _) _ _ Hlo _ _ Hhi).
  split; [vm_compute | vm_compute]; reflexivity.
Qed.

Lemma calibration_offset_before_rounding_witness :
  let t := scenario_tick (273#10) None in
  let r := _read_sensors (temp_offset scenario_monitor) (sense t) in
  _latest (fst (run scenario_monitor [t])) = Some r /\
  temperature r == 258#10 /\
  c_temperature (_classify scenario_config r) = "Comfortable".
Proof.
  intros t r.
  destruct (calibration_offset_before_rounding scenario_monitor t
              eq_refl eq_refl) as (L & _ & _ & _ & H).
  split; [exact L|].
  apply H; reflexivity.
Defined.

(** Rounding after the addition is not rounding before it. *)
Example offset_then_round_differs :
  ~ round1 ((2734#100) + -(155#100)) == round1 (2734#100) + -(155#100).
Proof. vm_compute. discriminate. Qed.

(** ** A failing INSERT *)

(** C5, as stated, on two ticks of which the first meets a failing INSERT:
    [run] ends with the error, the reading of the second tick is never
    published, no row is stored, and the process ends with a traceback
    (exit status 1). *)
Lemma persist_failure_stops_sampling :
  let t1 := scenario_tick (273#10) (Some "database is locked") in
  let t2 := scenario_tick (315#10) None in
  let r2 := _read_sensors (temp_offset scenario_monitor) (sense t2) in
  snd (run scenario_monitor [t1; t2])
    = Finished (Raise (OtherError "database is locked")) /\
  _latest (fst (run scenario_monitor [t1; t2])) <> Some r2 /\
  sensor_logs (fst (run scenario_monitor [t1; t2])) = [] /\
  exit_status (snd (main (Ok scenario_monitor) [t1; t2])) = Some 1%Z.
Proof.
  intros t1 t2 r2. subst t1 t2 r2.
  split; [vm_compute; reflexivity|].
  split; [intro H; vm_compute in H; discriminate|].
  split; vm_compute; reflexivity.
Qed.

(** C5, amended: when the INSERT of a tick fails, the error is not caught
    in the sampling loop.  The sample of that tick has been published, no
    row is stored for it, [cleanup] runs and [run] ends with the error,
    whatever ticks would have followed; [main] does not catch it either,
    and the process ends with exit status 1. *)
Theorem persist_failure_ends_run
  (m : Monitor) (t : Tick) (env : list Tick) (e : string) :
  _stop m = false -> paused m = false -> insert_error t = Some e ->
  let r := _read_sensors (temp_offset m) (sense t) in
  let c := _classify (config m) r in
  run m (t :: env)
    = (cleanup (set_latest_classes (set_latest m r) c),
       Finished (Raise (OtherError e))) /\
  _latest (fst (run m (t :: env))) = Some r /\
  _latest_classes (fst (run m (t :: env))) = Some c /\
  sensor_logs (fst (run m (t :: env))) = sensor_logs m /\
  _stop (fst (run m (t :: env))) = true /\
  exit_status (snd (main (Ok m) (t :: env))) = Some 1%Z.
Proof.
  intros S P F r c.
  assert (R : run m (t :: env)
              = (cleanup (set_latest_classes (set_latest m r) c),
                 Finished (Raise (OtherError e)))).
  { unfold run, run_loop. rewrite S, P. unfold sample, _log. rewrite F.
    reflexivity. }
  split; [exact R|].
  unfold main. rewrite R. simpl. auto 6.
Qed.

Lemma persist_failure_ends_run_witness :
  let t := scenario_tick (273#10) (Some "database is locked") in
  let t' := scenario_tick (315#10) None in
  _latest (fst (run scenario_monitor [t; t']))
    = Some (_read_sensors (temp_offset scenario_monitor) (sense t)) /\
  exit_status (snd (main (Ok scenario_monitor) [t; t'])) = Some 1%Z.
Proof.
  intros t t'.
  destruct (persist_failure_ends_run scenario_monitor t [t']
              "database is locked" eq_refl eq_refl eq_refl)
    as (_ & L & _ & _ & _ & X).
  split; [exact L | exact X].
Defined.

(** ** Validation of the configuration *)

Lemma load_unreadable (path e : string) :
  _load_and_validate_config path (inl e)
    = Raise (ConfigError ("Cannot read config '" ++ path ++ "': " ++ e)).
Proof. reflexivity. Qed.

Lemma check_sections_missing (kvs : list (string * json)) (keys : list string) :
  existsb (fun key => negb (dict_has key kvs)) keys = true ->
  exists msg, check_sections (JObj kvs) keys = Raise (ConfigError msg).
Proof.
  induction keys as [|key keys IH]; simpl; [discriminate|].
  destruct (dict_has key kvs); simpl.
  - exact IH.
  - intros _. eexists. reflexivity.
Qed.

(** A document that lacks one of the four sections is refused. *)
Lemma load_missing_section (path : string) (kvs : list (string * json)) :
  existsb (fun key => negb (dict_has key kvs))
    ["temperature"; "humidity"; "pressure"; "orientation"] = true ->
  exists msg,
    _load_and_validate_config path (inr (JObj kvs)) = Raise (ConfigError msg).
Proof.
  intro H. destruct (check_sections_missing kvs _ H) as [msg E].
  exists msg. unfold _load_and_validate_config. now rewrite E.
Qed.

(** On a document made of six numeric ranges the loader accepts exactly the
    configurations in which every range has [min < max]. *)
Lemma load_numeric_document (path : string) (c : Config) :
  (valid_config c ->
   _load_and_validate_config path (inr (json_of_config c))
     = Ok (with_meta (json_of_config c))) /\
  (~ valid_config c ->
   exists msg,
     _load_and_validate_config path (inr (json_of_config c))
       = Raise (ConfigError msg)).
Proof.
  unfold valid_config, valid_range.
  destruct c as [[a1 b1] [a2 b2] [a3 b3] [[a4 b4] [a5 b5] [a6 b6]]].
  cbn -[Qleb String.append].
  cmple b1 a1; cmple b2 a2; cmple b3 a3; cmple b4 a4; cmple b5 a5; cmple b6 a6;
    cbn -[Qleb String.append];
    (split;
     [ intros (H1 & H2 & H3 & H4 & H5 & H6); try reflexivity; absurd_order
     | intro N; try (eexists; reflexivity); exfalso; apply N; tauto ]).
Qed.

Lemma dict_has_get (k : string) (kvs : list (string * json)) :
  dict_has k kvs = match dict_get k kvs with Some _ => true | None => false end.
Proof.
  unfold dict_has. induction kvs as [|[k' v] kvs IH]; simpl; [reflexivity|].
  rewrite IH. destruct (dict_get k kvs); [apply orb_true_r|].
  rewrite orb_false_r. destruct (String.eqb k k'); reflexivity.
Qed.

Lemma py_ge_numbers (lo hi : json) (a b : number) :
  as_number lo = Some a -> as_number hi = Some b ->
  py_ge lo hi = Ok (num_leb b a).
Proof.
  destruct lo as [|[|]| | | | |], hi as [|[|]| | | | |];
    intros A B; try discriminate;
    injection A as <-; injection B as <-; reflexivity.
Qed.

(** What [check_env_range] answers for a section that is absent, and for a
    section that is an object: both bounds must be there, both must be
    numbers, and [min >= max] must be false. *)
Lemma check_env_range_absent (kvs : list (string * json)) (name : string) :
  dict_get name kvs = None ->
  check_env_range (JObj kvs) name
    = Raise (ConfigError ("'" ++ name ++ "' must have min and max.")).
Proof.
  intro G. unfold check_env_range. simpl. rewrite dict_has_get, G.
  reflexivity.
Qed.

Lemma check_env_range_object
  (kvs items : list (string * json)) (name : string) :
  dict_get name kvs = Some (JObj items) ->
  check_env_range (JObj kvs) name
  = match dict_get "min" items, dict_get "max" items with
    | Some lo, Some hi =>
        match as_number lo, as_number hi with
        | Some a, Some b =>
            if num_leb b a
            then Raise (ConfigError
                          ("Invalid range for '" ++ name
                             ++ "': min < max required."))
            else Ok tt
        | _, _ =>
            Raise (ConfigError
                     ("Invalid range for '" ++ name ++ "': min < max required."))
        end
    | _, _ => Raise (ConfigError ("'" ++ name ++ "' must have min and max."))
    end.
Proof.
  intro G. unfold check_env_range. cbn -[String.append dict_get dict_has].
  rewrite dict_has_get, G. cbn -[String.append dict_get dict_has].
  rewrite !dict_has_get.
  destruct (dict_get "min" items) as [lo|];
    cbn -[String.append dict_get dict_has]; [|reflexivity].
  destruct (dict_get "max" items) as [hi|];
    cbn -[String.append dict_get dict_has]; [|reflexivity].
  unfold is_int_or_float.
  destruct (as_number lo) as [a|] eqn:A;
    cbn -[String.append]; [|reflexivity].
  destruct (as_number hi) as [b|] eqn:B;
    cbn -[String.append]; [|reflexivity].
  rewrite (py_ge_numbers lo hi a b A B). cbn -[String.append num_leb].
  destruct (num_leb b a); reflexivity.
Qed.

(** What the loop over the axes answers for an axis that is an object:
    both bounds must be there, and [min >= max] must evaluate to false;
    the type of the bounds is whatever [>=] accepts. *)
Lemma check_axis_object
  (kvs axes items : list (string * json)) (axis : string) :
  dict_get "orientation" kvs = Some (JObj axes) ->
  dict_get axis axes = Some (JObj items) ->
  check_axis (JObj kvs) axis
  = match dict_get "min" items, dict_get "max" items with
    | Some lo, Some hi =>
        match py_ge lo hi with
        | Ok false => Ok tt
        | Ok true =>
            Raise (ConfigError ("Invalid orientation range for " ++ axis ++ "."))
        | Raise e => Raise e
        end
    | _, _ =>
        Raise (ConfigError ("Invalid orientation range for " ++ axis ++ "."))
    end.
Proof.
  intros G A. unfold check_axis. cbn -[String.append dict_get dict_has py_ge].
  rewrite G. cbn -[String.append dict_get dict_has py_ge].
  rewrite A. cbn -[String.append dict_get dict_has py_ge].
  rewrite !dict_has_get.
  destruct (dict_get "min" items) as [lo|];
    cbn -[String.append dict_get dict_has py_ge]; [|reflexivity].
  destruct (dict_get "max" items) as [hi|];
    cbn -[String.append dict_get dict_has py_ge]; [|reflexivity].
  destruct (py_ge lo hi) as [[|]|e]; reflexivity.
Qed.

(** C3, on four documents that differ from the scenario in one range.
    Strings as the bounds of the pitch axis are accepted: the loop over the
    axes compares the two bounds and never tests their type.  A string
    against a number there, or an axis that is a number and not a pair of
    bounds, ends in a [TypeError], not a [ConfigError].  The same strings
    under [temperature] are refused by the type test of
    [check_env_range]. *)
Theorem orientation_bounds_type_unchecked (path : string) :
  let numeric := JObj [("min", JNum 18); ("max", JNum 26)] in
  let axis := JObj [("min", JNum (-10)); ("max", JNum 10)] in
  let strings := JObj [("min", JStr "a"); ("max", JStr "b")] in
  let mixed := JObj [("min", JStr "low"); ("max", JNum 10)] in
  _load_and_validate_config path (inr (document numeric strings))
    = Ok (with_meta (document numeric strings)) /\
  _load_and_validate_config path (inr (document numeric mixed))
    = Raise TypeError /\
  _load_and_validate_config path (inr (document numeric (JNum 10)))
    = Raise TypeError /\
  _load_and_validate_config path (inr (document strings axis))
    = Raise (ConfigError "Invalid range for 'temperature': min < max required.").
Proof.
  repeat split; vm_compute; reflexivity.
Qed.

(** ** Exit status *)

Lemma sys_is_not_imported : sys_exit 2 = NameError "sys" /\ sys_exit 1 = NameError "sys".
Proof. split; reflexivity. Qed.

(** A start-up failure of any kind reaches [sys.exit] after its tagged
    line, and the call ends in a [NameError]: exit status 1. *)
Lemma main_startup_failure (e : exn) (env : list Tick) :
  is_Exception e = true ->
  exists tag,
    main (Raise e) env = ([Tagged tag e], Finished (Raise (NameError "sys"))) /\
    exit_status (snd (main (Raise e) env)) = Some 1%Z.
Proof.
  destruct e; simpl; try discriminate; intros _; eexists; split; reflexivity.
Qed.

(** A sleep cut by an interrupt ends [run] with [KeyboardInterrupt]. *)
Lemma run_interrupted (m : Monitor) (t : Tick) (env : list Tick) :
  _stop m = false -> insert_error t = None -> interrupted t = true ->
  snd (run m (t :: env)) = Finished (Raise KeyboardInterrupt).
Proof.
  intros S F I. unfold run, run_loop. rewrite S.
  unfold sample, _log, poll_sleep. rewrite F, I.
  destruct (paused m); reflexivity.
Qed.

(** An interrupt during [run] is caught by [main]: exit status 0. *)
Lemma main_interrupted (m : Monitor) (env : list Tick) :
  snd (run m env) = Finished (Raise KeyboardInterrupt) ->
  exit_status (snd (main (Ok m) env)) = Some 0%Z /\
  exists printed,
    fst (main (Ok m) env) = (printed ++ [Text (String "010" "Exiting...")])%list.
Proof.
  unfold main. destruct (run m env) as [m' o]. simpl. intros ->.
  split; [reflexivity|]. eexists. reflexivity.
Qed.

(** C6, at a configuration file that has no [temperature] section: the
    constructor raises [ConfigError], [main] prints the line tagged
    [[CONFIG ERROR]] and evaluates [sys.exit(2)]; the module never imports
    [sys], so the call raises [NameError] and the process ends with exit
    status 1, where the design document says 2. *)
Theorem config_error_exit_status
  (path : string) (rest : json -> result Monitor) (env : list Tick) :
  let e := ConfigError "Missing 'temperature' section in config." in
  let ctor := construct (Ok tt) path (inr (JObj [])) rest in
  ctor = Raise e /\
  main ctor env = ([Tagged "[CONFIG ERROR]" e], Finished (Raise (NameError "sys"))) /\
  exit_status (snd (main ctor env)) = Some 1%Z.
Proof.
  repeat split.
Qed.

(** ** The two loops on the shared attributes *)

Lemma paired_store_frame (m m' : Monitor) :
  config m' = config m -> _latest m' = _latest m ->
  _latest_classes m' = _latest_classes m ->
  paired_store m -> paired_store m'.
Proof.
  unfold paired_store. intros -> -> ->. auto.
Qed.

Lemma sampler_step_invariant (cfg : Config) (t : Tick) (s : System) :
  store_invariant cfg s -> store_invariant cfg (sampler_step t s).
Proof.
  destruct s as [m sp dp i]. unfold store_invariant, sampler_step. simpl.
  intros [C I]. destruct sp as [|r c|r c|r c|r c| |o]; simpl.
  - destruct (_stop m); simpl; [auto|].
    destruct (paused m); simpl; [auto|].
    rewrite C. auto.
  - destruct I as [Ec _]. simpl. auto.
  - destruct I as [Ec L]. split; [exact C|].
    unfold paired_store. simpl. rewrite L, C. exact Ec.
  - unfold _log. destruct (insert_error t); simpl; auto.
  - auto.
  - destruct (interrupted t); simpl; auto.
  - auto.
Qed.

Lemma display_step_frame (s : System) :
  config (mon (display_step s)) = config (mon s) /\
  _latest (mon (display_step s)) = _latest (mon s) /\
  _latest_classes (mon (display_step s)) = _latest_classes (mon s) /\
  spc (display_step s) = spc s.
Proof.
  destruct s as [m sp dp i]. unfold display_step. simpl.
  destruct dp as [|key|key c|key c col|key c col [r|]| |o]; simpl; auto.
  - destruct (_stop m); simpl; auto.
    destruct (_latest m) eqn:L, (_latest_classes m) eqn:K, (paused m);
      simpl; auto.
  - destruct (_latest_classes m) as [cs|] eqn:K; simpl; auto.
    destruct (class_of cs key); simpl; auto.
Qed.

Lemma step_invariant (cfg : Config) (x : Sched) (s : System) :
  store_invariant cfg s -> store_invariant cfg (step s x).
Proof.
  destruct x as [t| |e]; simpl.
  - apply sampler_step_invariant.
  - destruct (display_step_frame s) as (C & L & K & P).
    unfold store_invariant. rewrite P, C, L. intros [Hc I].
    split; [exact Hc|].
    destruct (spc s); try exact I;
      try (eapply paired_store_frame; eauto).
    destruct I as [I1 I2]. split; [exact I1|].
    eapply paired_store_frame; eauto.
  - pose proof (on_middle_pressed_frame (mon s) e) as F. simpl in F.
    destruct F as (C & _ & L & K & _).
    unfold store_invariant. simpl. rewrite C, L. intros [Hc I].
    split; [exact Hc|].
    destruct (spc s); try exact I;
      try (eapply paired_store_frame; eauto).
    destruct I as [I1 I2]. split; [exact I1|].
    eapply paired_store_frame; eauto.
Qed.

Lemma exec_invariant (cfg : Config) (schedule : list Sched) (s : System) :
  store_invariant cfg s -> store_invariant cfg (exec s schedule).
Proof.
  unfold exec. revert s.
  induction schedule as [|x schedule IH]; intros s I; simpl.
  - exact I.
  - apply IH. now apply step_invariant.
Qed.

Lemma boot_invariant (m : Monitor) :
  _latest m = None -> _latest_classes m = None ->
  store_invariant (config m) (boot m).
Proof.
  intros L K. unfold store_invariant, boot, paired_store. simpl.
  now rewrite L, K.
Qed.

(** An iteration of the display loop that nothing interrupts, started on a
    paired store, shows nothing or a matched pair. *)
Lemma display_tick_on_paired_store (s : System) :
  paired_store (mon s) -> dpc s = D_top ->
  let s' := exec s display_tick in
  led (mon s') = led (mon s) \/
  exists key r c,
    led (mon s')
      = (led (mon s)
           ++ [show_message (display_text key r) (6#100) (_color_for key c)])%list /\
    _latest (mon s) = Some r /\
    matched (config (mon s)) key r c.
Proof.
  destruct s as [m sp dp i].
  destruct m as [cfg off poll rot pz lat cls logs conn ld st out].
  unfold paired_store. simpl. intros P ->.
  unfold exec, display_tick. cbn [fold_left step].
  match goal with |- led (mon ?x) = _ \/ _ => remember x as s' eqn:Es end.
  destruct st; [left; subst s'; reflexivity|].
  destruct lat as [r|], cls as [cs|];
    try contradiction; try (left; subst s'; reflexivity).
  destruct pz; [left; subst s'; reflexivity|].
  unfold display_step at 5 in Es. cbn -[Nat.modulo nth display_step] in Es.
  set (key := nth (i mod 4) modes "") in Es.
  unfold display_step at 4 in Es. cbn -[Nat.modulo nth display_step] in Es.
  destruct (class_of cs key) as [c|e] eqn:E; [|left; subst s'; reflexivity].
  right. exists key, r, c. subst s'.
  split; [reflexivity|]. split; [reflexivity|].
  unfold matched. now rewrite <- P.
Qed.

(** The statements of the sampling thread, run in a row, are one
    iteration of [run]. *)
Lemma sampler_tick_is_sample (m : Monitor) (t : Tick) (dp : DPc) (i : nat) :
  _stop m = false -> paused m = false -> insert_error t = None ->
  exec (mkSystem m S_top dp i)
    [RunSampler t; RunSampler t; RunSampler t; RunSampler t; RunSampler t]
  = mkSystem (fst (sample m t)) S_sleep dp i.
Proof.
  intros S P F. unfold exec, sample, _log. rewrite F. simpl.
  unfold sampler_step at 5. simpl. rewrite S, P.
  unfold sampler_step at 4. simpl.
  unfold sampler_step at 3. simpl.
  unfold sampler_step at 2. unfold _log. simpl. rewrite F.
  reflexivity.
Qed.

(** C9, as stated, on [racing_schedule]: the first tick publishes a
    temperature of 20.0 with the label [Comfortable], the second one a
    temperature of 30.0 with the label [High]; the display loop, which read
    the label before the stores of the second publish and the reading after
    them, shows 30.0 in the colour of [Comfortable]. *)
Lemma display_mixes_two_publishes :
  let t1 := scenario_tick (215#10) None in
  let t2 := scenario_tick (315#10) None in
  let r1 := _read_sensors (temp_offset scenario_monitor) (sense t1) in
  let r2 := _read_sensors (temp_offset scenario_monitor) (sense t2) in
  let s := exec (boot scenario_monitor) (racing_schedule t1 t2) in
  led (mon s)
    = [show_message (display_text "temperature" r2) (6#100)
         (_color_for "temperature" (c_temperature (_classify scenario_config r1)))] /\
  led (mon s) = [show_message "T:30.0" (6#100) GREEN] /\
  c_temperature (_classify scenario_config r1) = "Comfortable" /\
  c_temperature (_classify scenario_config r2) = "High" /\
  ~ matched scenario_config "temperature" r2 "Comfortable".
Proof.
  intros t1 t2 r1 r2 s. subst t1 t2 r1 r2 s.
  split; [vm_compute; reflexivity|].
  split; [vm_compute; reflexivity|].
  split; [vm_compute; reflexivity|].
  split; [vm_compute; reflexivity|].
  intro H. vm_compute in H. discriminate.
Qed.

(** C9, amended: the two attributes are written by two stores and read by
    two statements, with no lock.  In every state that the threads can
    reach from start-up, if no publish is half done and the display loop
    is at the top of an iteration, then an iteration that no other thread
    interrupts shows nothing, or shows the reading stored at that moment
    in the colour of the label that [_classify] gives that reading: a pair
    from one publish.  With a publish between its two reads the iteration
    can show the reading of one publish with the label of another. *)
Theorem display_tick_without_interleaving (m : Monitor) (schedule : list Sched) :
  _latest m = None -> _latest_classes m = None ->
  let s := exec (boot m) schedule in
  mid_publish (spc s) = false -> dpc s = D_top ->
  let s' := exec s display_tick in
  led (mon s') = led (mon s) \/
  exists key r c,
    led (mon s')
      = (led (mon s)
           ++ [show_message (display_text key r) (6#100) (_color_for key c)])%list /\
    _latest (mon s) = Some r /\
    matched (config m) key r c.
Proof.
  intros L K s Hmid Htop s'.
  pose proof (exec_invariant (config m) schedule (boot m)
                (boot_invariant m L K)) as [C I].
  fold s in C, I.
  assert (P : paired_store (mon s)).
  { destruct (spc s); try exact I; [apply I | discriminate]. }
  rewrite <- C. now apply display_tick_on_paired_store.
Qed.

Lemma display_tick_without_interleaving_witness :
  let t := scenario_tick (215#10) None in
  let s := exec (boot scenario_monitor)
             [RunSampler t; RunSampler t; RunSampler t; RunSampler t;
              RunSampler t] in
  led (mon (exec s display_tick)) = led (mon s) \/
  exists key r c,
    led (mon (exec s display_tick))
      = (led (mon s)
           ++ [show_message (display_text key r) (6#100) (_color_for key c)])%list /\
    _latest (mon s) = Some r /\
    matched (config scenario_monitor) key r c.
Proof.
  intros t s.
  apply (display_tick_without_interleaving scenario_monitor
           [RunSampler t; RunSampler t; RunSampler t; RunSampler t;
            RunSampler t]); reflexivity.
Defined.

(** * Further properties of the code *)

(** ** What an accepted configuration looks like *)

Lemma bind_ok {A B} (m : result A) (k : A -> result B) (b : B) :
  bind m k = Ok b -> exists a, m = Ok a /\ k a = Ok b.
Proof.
  destruct m as [a|e]; simpl; [|discriminate]. intro H. now exists a.
Qed.

Lemma all_in_raise (e : exn) (ks : list string) :
  ks <> [] -> all_in (Raise e) ks = Raise e.
Proof. destruct ks; [congruence | reflexivity]. Qed.

(** A section on which [min] and [max] can be found and then read is an
    object that holds both. *)
Lemma bounds_readable (sect lo hi : json) :
  all_in (Ok sect) ["min"; "max"] = Ok true ->
  py_getitem sect "min" = Ok lo -> py_getitem sect "max" = Ok hi ->
  exists items,
    sect = JObj items /\
    dict_get "min" items = Some lo /\ dict_get "max" items = Some hi.
Proof.
  destruct sect as [| | | | |xs|items]; simpl; try discriminate.
  intros _ L H. exists items.
  destruct (dict_get "min" items); [|discriminate].
  destruct (dict_get "max" items); [|discriminate].
  split; [reflexivity|]. split; congruence.
Qed.

Lemma check_env_range_accepts (cfg : json) (name : string) :
  check_env_range cfg name = Ok tt ->
  exists kvs items lo hi a b,
    cfg = JObj kvs /\
    dict_get name kvs = Some (JObj items) /\
    dict_get "min" items = Some lo /\ dict_get "max" items = Some hi /\
    as_number lo = Some a /\ as_number hi = Some b /\ num_leb b a = false.
Proof.
  intro H.
  assert (exists kvs sect, cfg = JObj kvs /\ dict_get name kvs = Some sect)
    as (kvs & sect & -> & G).
  { unfold check_env_range in H.
    destruct cfg as [| | | |s|xs|kvs]; simpl in H; try discriminate.
    - destruct (contains name s); simpl in H; discriminate.
    - destruct (existsb _ xs); simpl in H; discriminate.
    - rewrite dict_has_get in H.
      destruct (dict_get name kvs) as [sect|] eqn:G;
        [|simpl in H; discriminate].
      now exists kvs, sect. }
  destruct sect as [|bb|q|x|s|xs|items].
  1-6: exfalso; unfold check_env_range in H;
       cbn -[String.append dict_get dict_has contains] in H;
       rewrite dict_has_get, G in H;
       cbn -[String.append dict_get dict_has contains] in H.
  - discriminate.
  - discriminate.
  - discriminate.
  - discriminate.
  - destruct (contains "min" s); cbn -[String.append contains] in H;
      [destruct (contains "max" s); cbn -[String.append] in H|];
      discriminate.
  - destruct (existsb _ xs); cbn -[String.append existsb] in H;
      [destruct (existsb _ xs); cbn -[String.append] in H|];
      discriminate.
  - rewrite (check_env_range_object kvs items name G) in H.
    destruct (dict_get "min" items) as [lo|] eqn:L; [|discriminate].
    destruct (dict_get "max" items) as [hi|] eqn:U; [|discriminate].
    destruct (as_number lo) as [a|] eqn:A; [|discriminate].
    destruct (as_number hi) as [b|] eqn:B; [|discriminate].
    destruct (num_leb b a) eqn:E; [discriminate|].
    exists kvs, items, lo, hi, a, b. auto 10.
Qed.

Lemma check_env_ranges_accepts (cfg : json) (names : list string) :
  check_env_ranges cfg names = Ok tt ->
  forall name, In name names -> check_env_range cfg name = Ok tt.
Proof.
  induction names as [|k names IH]; simpl; [tauto|].
  intros H name [<-|I].
  - apply bind_ok in H as ([] & H1 & _). exact H1.
  - apply bind_ok in H as ([] & _ & H2). now apply IH.
Qed.

(** The stages of the loader that an accepted document has passed. *)
Lemma load_stages (path : string) (cfg cfg' : json) :
  _load_and_validate_config path (inr cfg) = Ok cfg' ->
  check_env_ranges cfg ["temperature"; "humidity"; "pressure"] = Ok tt /\
  all_in (py_getitem cfg "orientation") ["pitch"; "roll"; "yaw"] = Ok true /\
  check_axes cfg ["pitch"; "roll"; "yaw"] = Ok tt /\
  setdefault_meta cfg = Ok cfg'.
Proof.
  unfold _load_and_validate_config. intro H.
  apply bind_ok in H as ([] & _ & H).
  apply bind_ok in H as ([] & H1 & H).
  apply bind_ok in H as (b & Hb & H).
  apply bind_ok in H as (incomplete & Hi & H).
  destruct incomplete; [discriminate|].
  apply bind_ok in H as ([] & H3 & H4).
  split; [exact H1|]. split; [|split; assumption].
  destruct b; simpl in Hi; [|discriminate].
  apply bind_ok in Hi as (a & Ha & E).
  destruct a; simpl in E; [exact Ha | discriminate].
Qed.

Lemma num_leb_finite (x y : Q) : num_leb (Fin y) (Fin x) = false -> x < y.
Proof. simpl. apply Qleb_gt. Qed.

(** X1: a configuration that [_load_and_validate_config] accepts is an
    object in which [temperature], [humidity] and [pressure] are objects
    whose [min] and [max] are numbers (int, float or bool) on which
    [min >= max] is false.  When the two bounds are finite this is
    [min < max]; a bound that is [nan] passes, every comparison with it
    being false. *)
Theorem accepted_scalar_ranges
  (path : string) (cfg cfg' : json) (name : string) :
  _load_and_validate_config path (inr cfg) = Ok cfg' ->
  In name ["temperature"; "humidity"; "pressure"] ->
  exists kvs items lo hi a b,
    cfg = JObj kvs /\
    dict_get name kvs = Some (JObj items) /\
    dict_get "min" items = Some lo /\ dict_get "max" items = Some hi /\
    as_number lo = Some a /\ as_number hi = Some b /\
    num_leb b a = false /\
    (forall x y, a = Fin x -> b = Fin y -> x < y).
Proof.
  intros H I. apply load_stages in H as (H & _).
  pose proof (check_env_ranges_accepts cfg _ H name I) as C.
  apply check_env_range_accepts in C
    as (kvs & items & lo & hi & a & b & E & G & L & U & A & B & N).
  exists kvs, items, lo, hi, a, b. repeat (split; [assumption|]).
  intros x y -> ->. now apply num_leb_finite.
Qed.

Lemma accepted_scalar_ranges_witness :
  exists kvs items lo hi a b,
    document (JObj [("min", JNonFinite NaN); ("max", JNum 26)])
      (JObj [("min", JNum (-10)); ("max", JNum 10)]) = JObj kvs /\
    dict_get "temperature" kvs = Some (JObj items) /\
    dict_get "min" items = Some lo /\ dict_get "max" items = Some hi /\
    as_number lo = Some a /\ as_number hi = Some b /\
    num_leb b a = false /\
    (forall x y, a = Fin x -> b = Fin y -> x < y).
Proof.
  apply (accepted_scalar_ranges "enviro_config.json"
           (document (JObj [("min", JNonFinite NaN); ("max", JNum 26)])
              (JObj [("min", JNum (-10)); ("max", JNum 10)]))
           (with_meta
              (document (JObj [("min", JNonFinite NaN); ("max", JNum 26)])
                 (JObj [("min", JNum (-10)); ("max", JNum 10)])))
           "temperature").
  - vm_compute. reflexivity.
  - simpl. tauto.
Defined.

Lemma py_getitem_ok (v x : json) (k : string) :
  py_getitem v k = Ok x ->
  exists kvs, v = JObj kvs /\ dict_get k kvs = Some x.
Proof.
  destruct v as [| | | | | |kvs]; simpl; try discriminate.
  destruct (dict_get k kvs) as [y|] eqn:G; [|discriminate].
  intros [= ->]. now exists kvs.
Qed.

Lemma check_axis_accepts (cfg : json) (axis : string) :
  check_axis cfg axis = Ok tt ->
  exists kvs axes items lo hi,
    cfg = JObj kvs /\
    dict_get "orientation" kvs = Some (JObj axes) /\
    dict_get axis axes = Some (JObj items) /\
    dict_get "min" items = Some lo /\ dict_get "max" items = Some hi /\
    py_ge lo hi = Ok false.
Proof.
  unfold check_axis. intro H.
  apply bind_ok in H as (o & Ho & H).
  apply bind_ok in H as (ax & Hax & H).
  apply bind_ok in H as (a & Ha & H).
  apply bind_ok in H as (invalid & Hi & H).
  destruct invalid; [discriminate|].
  destruct a; simpl in Hi; [|discriminate].
  apply bind_ok in Hi as (lo & Hlo & Hi).
  apply bind_ok in Hi as (hi & Hhi & Hge).
  destruct (bounds_readable ax lo hi Ha Hlo Hhi) as (items & -> & L & U).
  apply py_getitem_ok in Ho as (kvs & -> & G).
  apply py_getitem_ok in Hax as (axes & -> & A).
  exists kvs, axes, items, lo, hi. auto 10.
Qed.

Lemma check_axes_accepts (cfg : json) (axes : list string) :
  check_axes cfg axes = Ok tt ->
  forall axis, In axis axes -> check_axis cfg axis = Ok tt.
Proof.
  induction axes as [|k axes IH]; simpl; [tauto|].
  intros H axis [<-|I].
  - apply bind_ok in H as ([] & H1 & _). exact H1.
  - apply bind_ok in H as ([] & _ & H2). now apply IH.
Qed.

(** X2: in a configuration that [_load_and_validate_config] accepts,
    [orientation] is an object in which [pitch], [roll] and [yaw] are
    objects that hold [min] and [max], and [min >= max] evaluates to false
    on them.  The type of the two bounds is not tested: when both are
    numbers the comparison of numbers is false, which for finite bounds is
    [min < max] and which a [nan] bound always satisfies. *)
Theorem accepted_orientation_axes
  (path : string) (cfg cfg' : json) (axis : string) :
  _load_and_validate_config path (inr cfg) = Ok cfg' ->
  In axis ["pitch"; "roll"; "yaw"] ->
  exists kvs axes items lo hi,
    cfg = JObj kvs /\
    dict_get "orientation" kvs = Some (JObj axes) /\
    dict_get axis axes = Some (JObj items) /\
    dict_get "min" items = Some lo /\ dict_get "max" items = Some hi /\
    py_ge lo hi = Ok false /\
    (forall a b, as_number lo = Some a -> as_number hi = Some b ->
       num_leb b a = false) /\
    (forall x y, as_number lo = Some (Fin x) -> as_number hi = Some (Fin y) ->
       x < y).
Proof.
  intros H I. apply load_stages in H as (_ & _ & H & _).
  pose proof (check_axes_accepts cfg _ H axis I) as C.
  apply check_axis_accepts in C as (kvs & axes & items & lo & hi & C).
  destruct C as (E & O & A & L & U & G).
  exists kvs, axes, items, lo, hi. repeat (split; [assumption|]).
  split.
  - intros a b Na Nb. rewrite (py_ge_numbers lo hi a b Na Nb) in G.
    now injection G.
  - intros x y Na Nb. rewrite (py_ge_numbers lo hi _ _ Na Nb) in G.
    injection G as G. now apply num_leb_finite.
Qed.

Lemma accepted_orientation_axes_witness :
  exists kvs axes items lo hi,
    document (JObj [("min", JNum 18); ("max", JNum 26)])
      (JObj [("min", JNonFinite NaN); ("max", JNum 10)]) = JObj kvs /\
    dict_get "orientation" kvs = Some (JObj axes) /\
    dict_get "pitch" axes = Some (JObj items) /\
    dict_get "min" items = Some lo /\ dict_get "max" items = Some hi /\
    py_ge lo hi = Ok false /\
    (forall a b, as_number lo = Some a -> as_number hi = Some b ->
       num_leb b a = false) /\
    (forall x y, as_number lo = Some (Fin x) -> as_number hi = Some (Fin y) ->
       x < y).
Proof.
  apply (accepted_orientation_axes "enviro_config.json"
           (document (JObj [("min", JNum 18); ("max", JNum 26)])
              (JObj [("min", JNonFinite NaN); ("max", JNum 10)]))
           (with_meta
              (document (JObj [("min", JNum 18); ("max", JNum 26)])
                 (JObj [("min", JNonFinite NaN); ("max", JNum 10)])))
           "pitch").
  - vm_compute. reflexivity.
  - simpl. tauto.
Defined.

(** ** What the loader returns *)

Lemma dict_get_app_other (k k' : string) (v : json) (kvs : list (string * json)) :
  k <> k' -> dict_get k (kvs ++ [(k', v)]) = dict_get k kvs.
Proof.
  intro N. induction kvs as [|[k0 v0] kvs IH]; simpl.
  - apply String.eqb_neq in N. now rewrite N.
  - now rewrite IH.
Qed.

Lemma dict_get_app_last (k : string) (v : json) (kvs : list (string * json)) :
  dict_get k (kvs ++ [(k, v)]) = Some v.
Proof.
  induction kvs as [|[k0 v0] kvs IH]; simpl.
  - now rewrite String.eqb_refl.
  - now rewrite IH.
Qed.

Lemma accepted_is_object (path : string) (cfg cfg' : json) :
  _load_and_validate_config path (inr cfg) = Ok cfg' ->
  exists kvs, cfg = JObj kvs /\ setdefault_meta cfg = Ok cfg'.
Proof.
  intro H. pose proof H as S. apply load_stages in S as (_ & _ & _ & S).
  destruct cfg as [| | | | | |kvs]; try discriminate.
  now exists kvs.
Qed.

(** X3: when [_load_and_validate_config] accepts a document it returns
    that document, with an empty [meta] object added at the end if it had
    no [meta] key and unchanged otherwise: afterwards [meta] is always
    present, and every other key reads as in the file. *)
Theorem accepted_document_returned (path : string) (cfg cfg' : json) :
  _load_and_validate_config path (inr cfg) = Ok cfg' ->
  exists kvs,
    cfg = JObj kvs /\
    cfg' = (if dict_has "meta" kvs then cfg else with_meta cfg) /\
    py_in "meta" cfg' = Ok true /\
    (dict_has "meta" kvs = false -> py_getitem cfg' "meta" = Ok (JObj [])) /\
    (forall k, k <> "meta" -> py_getitem cfg' k = py_getitem cfg k).
Proof.
  intro H. apply accepted_is_object in H as (kvs & -> & S).
  exists kvs. split; [reflexivity|].
  unfold setdefault_meta in S.
  destruct (dict_has "meta" kvs) eqn:M; injection S as <-.
  - split; [reflexivity|]. split; [simpl; now rewrite M|].
    split; [discriminate | reflexivity].
  - split; [reflexivity|]. split.
    + simpl. unfold dict_has. rewrite existsb_app. simpl. apply f_equal.
      apply orb_true_r.
    + split.
      * intros _. simpl. now rewrite dict_get_app_last.
      * intros k N. simpl. now rewrite dict_get_app_other.
Qed.

Lemma accepted_document_returned_witness :
  exists kvs,
    json_of_config scenario_config = JObj kvs /\
    with_meta (json_of_config scenario_config)
      = (if dict_has "meta" kvs then json_of_config scenario_config
         else with_meta (json_of_config scenario_config)) /\
    py_in "meta" (with_meta (json_of_config scenario_config)) = Ok true /\
    (dict_has "meta" kvs = false ->
     py_getitem (with_meta (json_of_config scenario_config)) "meta"
       = Ok (JObj [])) /\
    (forall k, k <> "meta" ->
       py_getitem (with_meta (json_of_config scenario_config)) k
         = py_getitem (json_of_config scenario_config) k).
Proof.
  apply (accepted_document_returned "enviro_config.json"
           (json_of_config scenario_config)
           (with_meta (json_of_config scenario_config))).
  vm_compute. reflexivity.
Defined.

(** ** How the loader fails *)

Lemma json_nested_ind (P : json -> Prop) :
  P JNull -> (forall b, P (JBool b)) -> (forall q, P (JNum q)) ->
  (forall x, P (JNonFinite x)) ->
  (forall s, P (JStr s)) ->
  (forall xs, Forall P xs -> P (JArr xs)) ->
  (forall kvs, Forall (fun kv => P (snd kv)) kvs -> P (JObj kvs)) ->
  forall j, P j.
Proof.
  intros HNull HBool HNum HNonFin HStr HArr HObj.
  fix IH 1. intros [|b|q|x|s|xs|kvs].
  - exact HNull.
  - apply HBool.
  - apply HNum.
  - apply HNonFin.
  - apply HStr.
  - apply HArr. revert xs. fix IHl 1. intros [|x xs].
    + constructor.
    + constructor; [apply IH | apply IHl].
  - apply HObj. revert kvs. fix IHl 1. intros [|[k v] kvs].
    + constructor.
    + constructor; [apply IH | apply IHl].
Qed.

Lemma py_ge_raises (a b : json) (e : exn) :
  py_ge a b = Raise e -> e = TypeError.
Proof.
  revert b. induction a as [|ba|qa|xa|sa|xs F|kvs _] using json_nested_ind;
    intros b.
  - simpl. congruence.
  - destruct ba, b as [|[|]| | | | |]; simpl; congruence.
  - destruct b as [|[|]| | | | |]; simpl; congruence.
  - destruct b as [|[|]| | | | |]; simpl; congruence.
  - destruct b; simpl; congruence.
  - destruct b as [| | | | |lb|]; try (simpl; congruence).
    simpl. revert lb.
    induction F as [|x xs Px F IH]; intros [|y lb]; try discriminate.
    destruct (json_eqb x y); [apply IH | apply Px].
  - destruct b; simpl; congruence.
Qed.

Lemma py_in_raises (k : string) (v : json) (e : exn) :
  py_in k v = Raise e -> e = TypeError.
Proof. destruct v; simpl; congruence. Qed.

Lemma all_in_raises (c : result json) (ks : list string) (e : exn) :
  (forall e', c = Raise e' -> e' = TypeError) ->
  all_in c ks = Raise e -> e = TypeError.
Proof.
  intro Hc. induction ks as [|k ks IH]; simpl; [discriminate|].
  destruct c as [v|e']; simpl.
  - destruct (py_in k v) as [[|]|e''] eqn:I; simpl.
    + exact IH.
    + discriminate.
    + intros [= <-]. now apply (py_in_raises k v).
  - intros [= <-]. now apply Hc.
Qed.

Lemma check_sections_raises (cfg : json) (keys : list string) (e : exn) :
  check_sections cfg keys = Raise e -> config_or_type_error e.
Proof.
  induction keys as [|key keys IH]; simpl; [discriminate|].
  destruct (py_in key cfg) as [[|]|e'] eqn:I; simpl.
  - exact IH.
  - intros [= <-]. exact Logic.I.
  - intros [= <-]. now rewrite (py_in_raises key cfg e' I).
Qed.

(** In an object, or a list, or a string, a key that is found can be read
    or the read ends in a [TypeError]: never in a [KeyError]. *)
Lemma getitem_after_in (v : json) (k : string) :
  py_in k v = Ok true ->
  (exists x, py_getitem v k = Ok x) \/ py_getitem v k = Raise TypeError.
Proof.
  destruct v as [| | | | | |kvs]; simpl; try discriminate; auto.
  rewrite dict_has_get. destruct (dict_get k kvs) as [x|]; [|discriminate].
  intros _. left. now exists x.
Qed.

Lemma all_in_true (v : json) (ks : list string) :
  all_in (Ok v) ks = Ok true -> forall k, In k ks -> py_in k v = Ok true.
Proof.
  induction ks as [|k0 ks IH]; simpl; [tauto|].
  destruct (py_in k0 v) as [[|]|e] eqn:I; simpl; try discriminate.
  intros H k [<-|Hk]; [exact I | now apply IH].
Qed.

Lemma check_env_range_raises (cfg : json) (name : string) (e : exn) :
  check_env_range cfg name = Raise e -> config_or_type_error e.
Proof.
  unfold check_env_range.
  destruct (py_in name cfg) as [[|]|e0] eqn:I; cbn [bind negb].
  - destruct (getitem_after_in cfg name I) as [[sect G]|G]; rewrite G.
    + destruct (all_in (Ok sect) ["min"; "max"]) as [[|]|e1] eqn:A; cbn [bind negb].
      * pose proof (all_in_true sect _ A) as M.
        destruct (getitem_after_in sect "min" (M "min" (or_introl eq_refl)))
          as [[lo L]|L]; rewrite L; cbn [bind negb];
          [|intros [= <-]; exact Logic.I].
        destruct (getitem_after_in sect "max"
                    (M "max" (or_intror (or_introl eq_refl))))
          as [[hi U]|U]; rewrite U; cbn [bind negb];
          [|intros [= <-]; exact Logic.I].
        destruct (is_int_or_float lo); cbn [bind negb];
          [|intros [= <-]; exact Logic.I].
        destruct (is_int_or_float hi); cbn [bind negb];
          [|intros [= <-]; exact Logic.I].
        destruct (py_ge lo hi) as [[|]|e2] eqn:G2; cbn [bind negb].
        -- intros [= <-]. exact Logic.I.
        -- discriminate.
        -- intros [= <-]. now rewrite (py_ge_raises lo hi e2 G2).
      * intros [= <-]. exact Logic.I.
      * intros [= <-].
        assert (e1 = TypeError) as ->; [|exact Logic.I].
        apply (all_in_raises (Ok sect) ["min"; "max"]); [discriminate | exact A].
    + cbn [bind negb]. intros [= <-]. exact Logic.I.
  - intros [= <-]. exact Logic.I.
  - intros [= <-]. now rewrite (py_in_raises name cfg e0 I).
Qed.

Lemma check_env_ranges_raises (cfg : json) (names : list string) (e : exn) :
  check_env_ranges cfg names = Raise e -> config_or_type_error e.
Proof.
  induction names as [|k names IH]; simpl; [discriminate|].
  destruct (check_env_range cfg k) as [[]|e'] eqn:C; simpl.
  - exact IH.
  - intros [= <-]. now apply (check_env_range_raises cfg k).
Qed.

Lemma check_axis_raises (cfg o : json) (axis : string) (e : exn) :
  py_getitem cfg "orientation" = Ok o -> py_in axis o = Ok true ->
  check_axis cfg axis = Raise e -> config_or_type_error e.
Proof.
  intros Ho I. unfold check_axis. rewrite Ho. cbn [bind].
  destruct (getitem_after_in o axis I) as [[ax G]|G]; rewrite G; cbn [bind];
    [|intros [= <-]; exact Logic.I].
  destruct (all_in (Ok ax) ["min"; "max"]) as [[|]|e1] eqn:A; cbn [bind negb].
  - pose proof (all_in_true ax _ A) as M.
    destruct (getitem_after_in ax "min" (M "min" (or_introl eq_refl)))
      as [[lo L]|L]; rewrite L; cbn [bind];
      [|intros [= <-]; exact Logic.I].
    destruct (getitem_after_in ax "max"
                (M "max" (or_intror (or_introl eq_refl))))
      as [[hi U]|U]; rewrite U; cbn [bind];
      [|intros [= <-]; exact Logic.I].
    destruct (py_ge lo hi) as [[|]|e2] eqn:G2; cbn [bind].
    + intros [= <-]. exact Logic.I.
    + discriminate.
    + intros [= <-]. now rewrite (py_ge_raises lo hi e2 G2).
  - intros [= <-]. exact Logic.I.
  - intros [= <-].
    assert (e1 = TypeError) as ->; [|exact Logic.I].
    apply (all_in_raises (Ok ax) ["min"; "max"]); [discriminate | exact A].
Qed.

Lemma check_axes_raises (cfg o : json) (axes : list string) (e : exn) :
  py_getitem cfg "orientation" = Ok o ->
  (forall axis, In axis axes -> py_in axis o = Ok true) ->
  check_axes cfg axes = Raise e -> config_or_type_error e.
Proof.
  intros Ho. induction axes as [|k axes IH]; simpl; [discriminate|].
  intros I. destruct (check_axis cfg k) as [[]|e'] eqn:C; cbn [bind].
  - apply IH. intros axis Hin. apply I. now right.
  - intros [= <-]. apply (check_axis_raises cfg o k e' Ho); [|exact C].
    apply I. now left.
Qed.

(** X4: whatever the file holds, [_load_and_validate_config] fails with a
    [ConfigError] or with a [TypeError] and with nothing else: a key is
    never read before it has been found, so no [KeyError] escapes, and
    [setdefault] is only reached on an object. *)
Theorem load_failures (path : string) (file : string + json) (e : exn) :
  _load_and_validate_config path file = Raise e -> config_or_type_error e.
Proof.
  destruct file as [msg|cfg]; [intros [= <-]; exact Logic.I|].
  unfold _load_and_validate_config.
  destruct (check_sections cfg _) as [[]|e0] eqn:S; cbn [bind];
    [|intros [= <-]; now apply (check_sections_raises cfg _ e0 S)].
  destruct (check_env_ranges cfg _) as [[]|e1] eqn:R; cbn [bind];
    [|intros [= <-]; now apply (check_env_ranges_raises cfg _ e1 R)].
  destruct (py_in "orientation" cfg) as [[|]|e2] eqn:I; cbn [bind negb].
  - destruct (getitem_after_in cfg "orientation" I) as [[o G]|G]; rewrite G.
    + destruct (all_in (Ok o) ["pitch"; "roll"; "yaw"]) as [[|]|e3] eqn:A;
        cbn [bind negb].
      * destruct (check_axes cfg _) as [[]|e4] eqn:X; cbn [bind].
        -- apply py_getitem_ok in G as (kvs & -> & _). simpl.
           destruct (dict_has "meta" kvs); discriminate.
        -- intros [= <-].
           apply (check_axes_raises cfg o _ e4 G (all_in_true o _ A) X).
      * intros [= <-]. exact Logic.I.
      * intros [= <-].
        assert (e3 = TypeError) as ->; [|exact Logic.I].
        apply (all_in_raises (Ok o) ["pitch"; "roll"; "yaw"]);
          [discriminate | exact A].
    + cbn [all_in bind]. intros [= <-]. exact Logic.I.
  - intros [= <-]. exact Logic.I.
  - intros [= <-]. now rewrite (py_in_raises _ cfg e2 I).
Qed.

Lemma load_failures_witness :
  config_or_type_error
    (ConfigError "Missing 'temperature' section in config.").
Proof.
  apply (load_failures "enviro_config.json" (inr (JObj []))).
  reflexivity.
Defined.

(** ** The tunables *)

(** X5: a configuration file without a [meta] section, once accepted, gives
    the monitor its defaults: a calibration offset of -1.5, a poll interval
    of 10 seconds and a rotation interval of 5 seconds. *)
Theorem default_tunables
  (float_of_str : string -> result number) (int_of_str : string -> result Z)
  (path : string) (kvs : list (string * json)) (cfg' : json) :
  _load_and_validate_config path (inr (JObj kvs)) = Ok cfg' ->
  dict_has "meta" kvs = false ->
  init_tunables float_of_str int_of_str cfg' = Ok (Fin (-(15#10)), 10%Z, 5%Z).
Proof.
  intros H M. apply accepted_is_object in H as (kvs' & E & S).
  injection E as <-. unfold setdefault_meta in S. rewrite M in S.
  injection S as <-. unfold init_tunables, py_get.
  rewrite dict_get_app_last. reflexivity.
Qed.

Lemma default_tunables_witness :
  init_tunables (fun _ => Raise (OtherError "ValueError"))
    (fun _ => Raise (OtherError "ValueError"))
    (with_meta (json_of_config scenario_config))
  = Ok (Fin (-(15#10)), 10%Z, 5%Z).
Proof.
  apply (default_tunables _ _ "enviro_config.json"
           [("temperature", json_of_range (cfg_temperature scenario_config));
            ("humidity", json_of_range (cfg_humidity scenario_config));
            ("pressure", json_of_range (cfg_pressure scenario_config));
            ("orientation",
              JObj [("pitch", json_of_range (o_pitch (cfg_orientation scenario_config)));
                    ("roll", json_of_range (o_roll (cfg_orientation scenario_config)));
                    ("yaw", json_of_range (o_yaw (cfg_orientation scenario_config)))])]).
  - vm_compute. reflexivity.
  - reflexivity.
Defined.

(** X6: a [meta] entry that is not an object ([null], a number, a string,
    a list) passes the validation untouched, and the constructor then
    fails on [meta.get] with an [AttributeError], which is not a
    [ConfigError]. *)
Theorem meta_not_an_object
  (float_of_str : string -> result number) (int_of_str : string -> result Z)
  (path : string) (kvs : list (string * json)) (cfg' meta : json) :
  _load_and_validate_config path (inr (JObj kvs)) = Ok cfg' ->
  dict_get "meta" kvs = Some meta ->
  (forall items, meta <> JObj items) ->
  cfg' = JObj kvs /\
  init_tunables float_of_str int_of_str cfg' = Raise AttributeError.
Proof.
  intros H G N. apply accepted_is_object in H as (kvs' & E & S).
  injection E as <-. unfold setdefault_meta in S.
  rewrite dict_has_get, G in S. injection S as <-.
  split; [reflexivity|].
  unfold init_tunables. simpl. rewrite G. simpl.
  destruct meta; try reflexivity. now destruct (N items).
Qed.

Lemma meta_not_an_object_witness :
  let kvs :=
    [("temperature", JObj [("min", JNum 18); ("max", JNum 26)]);
     ("humidity", JObj [("min", JNum 30); ("max", JNum 60)]);
     ("pressure", JObj [("min", JNum 990); ("max", JNum 1020)]);
     ("orientation",
       JObj [("pitch", JObj [("min", JNum (-10)); ("max", JNum 10)]);
             ("roll", JObj [("min", JNum (-10)); ("max", JNum 10)]);
             ("yaw", JObj [("min", JNum (-180)); ("max", JNum 180)])]);
     ("meta", JNull)] in
  JObj kvs = JObj kvs /\
  init_tunables (fun _ => Raise (OtherError "ValueError"))
    (fun _ => Raise (OtherError "ValueError")) (JObj kvs)
  = Raise AttributeError.
Proof.
  intro kvs.
  apply (meta_not_an_object _ _ "enviro_config.json" kvs (JObj kvs) JNull).
  - vm_compute. reflexivity.
  - reflexivity.
  - discriminate.
Defined.

(** ** What the sampling loop keeps *)

Lemma sample_frame (m : Monitor) (t : Tick) :
  config (fst (sample m t)) = config m /\
  temp_offset (fst (sample m t)) = temp_offset m /\
  paused (fst (sample m t)) = paused m /\
  _stop (fst (sample m t)) = _stop m /\
  led (fst (sample m t)) = led m.
Proof.
  unfold sample, _log. destruct (insert_error t); simpl; tauto.
Qed.

Lemma sample_cases (m : Monitor) (t : Tick) :
  let r := _read_sensors (temp_offset m) (sense t) in
  let c := _classify (config m) r in
  (exists msg,
     snd (sample m t) = Some (OtherError msg) /\
     sensor_logs (fst (sample m t)) = sensor_logs m) \/
  (snd (sample m t) = None /\
   sensor_logs (fst (sample m t))
     = (sensor_logs m ++ [mkLogRow r c (utcnow t)])%list).
Proof.
  unfold sample, _log. destruct (insert_error t) as [msg|]; simpl.
  - left. now exists msg.
  - right. auto.
Qed.

Lemma poll_sleep_frame (m : Monitor) (t : Tick) :
  config (fst (poll_sleep m t)) = config m /\
  temp_offset (fst (poll_sleep m t)) = temp_offset m /\
  _latest (fst (poll_sleep m t)) = _latest m /\
  _latest_classes (fst (poll_sleep m t)) = _latest_classes m /\
  sensor_logs (fst (poll_sleep m t)) = sensor_logs m /\
  _stop (fst (poll_sleep m t)) = _stop m /\
  (snd (poll_sleep m t) = None \/
   snd (poll_sleep m t) = Some KeyboardInterrupt).
Proof.
  unfold poll_sleep.
  pose proof (joystick_frame (during_sleep t) m) as F. simpl in F.
  destruct F as (C & O & L & K & R & S & _).
  destruct (interrupted t); simpl; auto 10.
Qed.

(** One iteration of the loop of [run], on a monitor that is not stopped:
    the monitor after it, and the exception that ended it, if any. *)
Lemma run_loop_step (m : Monitor) (t : Tick) (env : list Tick) :
  _stop m = false ->
  let m1 := if paused m then m else fst (sample m t) in
  let e1 := if paused m then None else snd (sample m t) in
  run_loop m (t :: env)
  = match e1 with
    | Some e => (m1, Finished (Raise e))
    | None =>
        match snd (poll_sleep m1 t) with
        | Some e => (fst (poll_sleep m1 t), Finished (Raise e))
        | None => run_loop (fst (poll_sleep m1 t)) env
        end
    end.
Proof.
  intro S. simpl. rewrite S.
  destruct (paused m); [|destruct (sample m t) as [m1 [e|]]]; simpl;
    try reflexivity;
    match goal with |- context [poll_sleep ?x t] =>
      destruct (poll_sleep x t) as [m2 [e2|]] end; reflexivity.
Qed.

Lemma run_loop_rows (env : list Tick) (m : Monitor) :
  exists added,
    sensor_logs (fst (run_loop m env)) = (sensor_logs m ++ added)%list /\
    Forall (row_ok (config m)) added /\
    (List.length added <= List.length env)%nat.
Proof.
  revert m. induction env as [|t env IH]; intro m.
  - exists []. simpl. rewrite app_nil_r. auto.
  - destruct (_stop m) eqn:S.
    + exists []. simpl. rewrite S. simpl. rewrite app_nil_r.
      split; [reflexivity|]. split; [constructor | lia].
    + rewrite (run_loop_step m t env S).
      destruct (paused m) eqn:P.
      * pose proof (poll_sleep_frame m t) as (C & _ & _ & _ & R & _).
        destruct (snd (poll_sleep m t)).
        -- exists []. simpl. rewrite app_nil_r.
           split; [exact R|]. split; [constructor | lia].
        -- destruct (IH (fst (poll_sleep m t))) as (added & E & F & N).
           exists added. rewrite E, R, <- C. simpl. auto with arith.
      * pose proof (sample_frame m t) as (C1 & _).
        destruct (sample_cases m t) as [(msg & E1 & R1)|(E1 & R1)];
          rewrite E1.
        -- exists []. simpl. rewrite app_nil_r.
           split; [exact R1|]. split; [constructor | lia].
        -- pose proof (poll_sleep_frame (fst (sample m t)) t)
             as (C & _ & _ & _ & R & _).
           assert (K : row_ok (config m)
                         (mkLogRow (_read_sensors (temp_offset m) (sense t))
                            (_classify (config m)
                               (_read_sensors (temp_offset m) (sense t)))
                            (utcnow t))) by reflexivity.
           destruct (snd (poll_sleep (fst (sample m t)) t)).
           ++ eexists [_]. simpl. split; [rewrite R; exact R1|].
              split; [constructor; [exact K | constructor] | lia].
           ++ destruct (IH (fst (poll_sleep (fst (sample m t)) t)))
                as (added & E & F & N).
              eexists (_ :: added). rewrite E, R, R1, <- app_assoc. simpl.
              split; [reflexivity|]. rewrite C, C1 in F.
              split; [constructor; [exact K | exact F] | lia].
Qed.

(** X10: [run] only appends to the table: after any number of ticks the
    rows that were there are still there, in front; the rows added each
    carry the labels that [_classify] gives their own reading; and at most
    one row is added per tick. *)
Theorem rows_are_appended (m : Monitor) (env : list Tick) :
  exists added,
    sensor_logs (fst (run m env)) = (sensor_logs m ++ added)%list /\
    Forall (row_ok (config m)) added /\
    (List.length added <= List.length env)%nat.
Proof.
  destruct (run_loop_rows env m) as (added & E & F & N).
  exists added. unfold run.
  destruct (run_loop m env) as [m' [|r]]; simpl in *; auto.
Qed.

Lemma synced_frame (m m' : Monitor) :
  _latest m' = _latest m -> _latest_classes m' = _latest_classes m ->
  sensor_logs m' = sensor_logs m -> synced m -> synced m'.
Proof.
  unfold synced. intros -> -> ->. auto.
Qed.

Lemma sample_synced (m : Monitor) (t : Tick) :
  snd (sample m t) = None -> synced (fst (sample m t)).
Proof.
  unfold sample, _log, synced. destruct (insert_error t); simpl;
    [discriminate|].
  intros _. rewrite rev_unit. simpl. auto.
Qed.

Lemma run_loop_synced (env : list Tick) (m : Monitor) :
  synced m ->
  (forall msg, snd (run_loop m env) <> Finished (Raise (OtherError msg))) ->
  synced (fst (run_loop m env)).
Proof.
  revert m. induction env as [|t env IH]; intros m Y N; [exact Y|].
  destruct (_stop m) eqn:S; [simpl; rewrite S; exact Y|].
  rewrite (run_loop_step m t env S) in *.
  destruct (paused m) eqn:P.
  - pose proof (poll_sleep_frame m t) as (_ & _ & L & K & R & _).
    assert (Y' : synced (fst (poll_sleep m t)))
      by (now apply (synced_frame m)).
    destruct (snd (poll_sleep m t)); [exact Y'|]. now apply IH.
  - destruct (sample_cases m t) as [(msg & E1 & _)|(E1 & _)];
      rewrite E1 in *.
    + now destruct (N msg).
    + pose proof (poll_sleep_frame (fst (sample m t)) t)
        as (_ & _ & L & K & R & _).
      assert (Y' : synced (fst (poll_sleep (fst (sample m t)) t))).
      { apply (synced_frame (fst (sample m t))); auto.
        now apply sample_synced. }
      destruct (snd (poll_sleep (fst (sample m t)) t)); [exact Y'|].
      now apply IH.
Qed.

(** X11: between two ticks, what is published is what was last stored.
    Starting from a monitor whose published pair is the pair of its last
    row (or that has neither), after any number of ticks that each ran to
    their sleep, paused ticks and a sleep cut by an interrupt included,
    [_latest] and [_latest_classes] are the reading and the labels of the
    last row of the table, unless an INSERT failed.  (A tick cut between
    its publish and its INSERT is the case of the failed INSERT: the pair
    is published and no row stored.) *)
Theorem published_is_last_row (m : Monitor) (env : list Tick) :
  synced m ->
  (forall msg, snd (run m env) <> Finished (Raise (OtherError msg))) ->
  synced (fst (run m env)).
Proof.
  intros Y N. pose proof (run_loop_synced env m Y) as H.
  unfold run in *. destruct (run_loop m env) as [m' [|r]]; simpl in *.
  - apply H. discriminate.
  - destruct (cleanup_frame m') as (_ & L & K & R & _).
    apply (synced_frame m'); auto.
Qed.

Lemma published_is_last_row_witness :
  synced (fst (run scenario_monitor
                 [scenario_tick (273#10) None; scenario_tick (315#10) None])).
Proof.
  apply (published_is_last_row scenario_monitor
           [scenario_tick (273#10) None; scenario_tick (315#10) None]).
  - split; reflexivity.
  - intros msg H. vm_compute in H. discriminate.
Defined.

(** ** Pause *)




(** ** How [run] ends *)




(** ** The rotation of the display *)

Lemma mode_at_cases (j : nat) :
  mode_at j = "temperature" \/ mode_at j = "humidity" \/
  mode_at j = "pressure" \/ mode_at j = "orientation".
Proof.
  unfold mode_at. simpl List.length.
  pose proof (Nat.mod_upper_bound j 4) as B.
  destruct (j mod 4) as [|[|[|[|k]]]]; simpl; auto; lia.
Qed.

Lemma class_of_mode (cs : Classes) (j : nat) :
  exists c, class_of cs (mode_at j) = Ok c.
Proof.
  destruct (mode_at_cases j) as [E|[E|[E|E]]]; rewrite E; eexists; reflexivity.
Qed.

(** An iteration on a published pair, while nothing is paused or stopped:
    one call of [show_message], and the rotation index moves on. *)
Lemma display_iteration_active (s : System) (r : Reading) (cs : Classes) :
  dpc s = D_top -> _stop (mon s) = false -> paused (mon s) = false ->
  _latest (mon s) = Some r -> _latest_classes (mon s) = Some cs ->
  display_iteration s
  = mkSystem (led_call (mon s) (shown r cs (idx s))) (spc s) D_top (S (idx s)).
Proof.
  destruct s as [m sp dp i].
  destruct m as [cfg off poll rot pz lat cls logs conn ld st out].
  simpl. intros -> -> -> -> ->.
  unfold display_iteration.
  set (m0 := mkMonitor cfg off poll rot false (Some r) (Some cs) logs conn
               ld false out).
  change (display_step (mkSystem m0 sp D_top i))
    with (mkSystem m0 sp (D_key (mode_at i)) i).
  unfold shown.
  destruct (mode_at_cases i) as [E|[E|[E|E]]]; rewrite E; reflexivity.
Qed.

(** X14: while a pair is published and the monitor is neither paused nor
    stopped, [n] iterations of the display loop make [n] calls of
    [show_message], one per iteration, going through temperature, humidity,
    pressure and orientation in that order and starting again, each with
    the published reading and the colour of its published label; the modes
    repeat with period four, and the label of every mode is found. *)
Theorem display_rotation (n : nat) (s : System) (r : Reading) (cs : Classes) :
  dpc s = D_top -> _stop (mon s) = false -> paused (mon s) = false ->
  _latest (mon s) = Some r -> _latest_classes (mon s) = Some cs ->
  let s' := Nat.iter n display_iteration s in
  led (mon s') = (led (mon s) ++ map (shown r cs) (seq (idx s) n))%list /\
  idx s' = (idx s + n)%nat /\
  dpc s' = D_top /\
  (forall j, mode_at (j + 4) = mode_at j) /\
  map mode_at [0; 1; 2; 3]%nat = modes /\
  (forall j, exists c, class_of cs (mode_at j) = Ok c).
Proof.
  intros T S P L K s'. subst s'.
  split; [|split; [|split; [|split; [|split]]]].
  4: { intro j. unfold mode_at. simpl List.length.
       replace (j + 4)%nat with (j + 1 * 4)%nat by lia.
       now rewrite Nat.Div0.mod_add. }
  4: reflexivity.
  4: apply class_of_mode.
  all: revert s T S P L K; induction n as [|n IH]; intros s T S P L K;
    [simpl; rewrite ?app_nil_r; auto; lia|].
  all: rewrite Nat.iter_succ_r;
    rewrite (display_iteration_active s r cs T S P L K).
  - rewrite IH; try reflexivity; try assumption.
    simpl. now rewrite <- app_assoc.
  - rewrite IH; try reflexivity; try assumption. simpl. lia.
  - rewrite IH; try reflexivity; try assumption.
Qed.

Lemma display_rotation_witness :
  let m := set_latest_classes
             (set_latest scenario_monitor
                (_read_sensors (-(15#10)) (mkRaw (273#10) 45 1000 0 0 0)))
             (_classify scenario_config
                (_read_sensors (-(15#10)) (mkRaw (273#10) 45 1000 0 0 0))) in
  led (mon (Nat.iter 5 display_iteration (boot m)))
    = [show_message "T:25.8" (6#100) GREEN;
       show_message "H:45.0" (6#100) GREEN;
       show_message "P:1000" (6#100) GREEN;
       show_message "P:0/R:0/Y:0" (6#100) GREEN;
       show_message "T:25.8" (6#100) GREEN].
Proof.
  intro m.
  destruct (display_rotation 5 (boot m)
              (_read_sensors (-(15#10)) (mkRaw (273#10) 45 1000 0 0 0))
              (_classify scenario_config
                 (_read_sensors (-(15#10)) (mkRaw (273#10) 45 1000 0 0 0)))
              eq_refl eq_refl eq_refl eq_refl eq_refl) as (H & _).
  rewrite H. vm_compute. reflexivity.
Defined.

(** X15: an iteration of the display loop on a paused monitor, or before
    anything has been published, shows nothing and leaves the rotation
    where it is: when the display resumes it continues with the mode it
    had reached. *)
Theorem display_idle (s : System) :
  dpc s = D_top -> _stop (mon s) = false ->
  paused (mon s) = true \/ _latest (mon s) = None \/
  _latest_classes (mon s) = None ->
  display_iteration s = s.
Proof.
  destruct s as [m sp dp i].
  destruct m as [cfg off poll rot pz lat cls logs conn ld st out].
  simpl. intros -> -> H. unfold display_iteration.
  destruct lat, cls, pz; try reflexivity;
    destruct H as [H|[H|H]]; discriminate.
Qed.

Lemma display_idle_witness :
  display_iteration (boot scenario_monitor) = boot scenario_monitor.
Proof.
  apply (display_idle (boot scenario_monitor)).
  - reflexivity.
  - reflexivity.
  - right. left. reflexivity.
Defined.

(** ** Colours *)

Lemma scalar_colour (key : string) (v lo hi : number) :
  String.eqb key "orientation" = false ->
  let col := _color_for key (AnyFloat._bucket v lo hi) in
  (col = BLUE <-> num_ltb v lo = true) /\
  (col = RED <-> num_ltb v lo = false /\ num_ltb hi v = true) /\
  (col = GREEN <-> num_ltb v lo = false /\ num_ltb hi v = false).
Proof.
  intro K. unfold _color_for, AnyFloat._bucket. rewrite K.
  destruct (num_ltb v lo); [|destruct (num_ltb hi v)]; simpl;
    unfold GREEN, BLUE, RED;
    repeat split; intros; try discriminate; try reflexivity;
    repeat match goal with H : _ /\ _ |- _ => destruct H end;
    discriminate.
Qed.

(** X16: the colour in which the display loop shows temperature, humidity
    or pressure follows the two tests of [_bucket]: blue iff the value is
    below the minimum, red iff it is not and is above the maximum, green
    iff neither test holds.  For finite value and bounds green is the
    inclusive range [min <= v <= max]; a value that is [nan], for which
    both tests are false, is shown green.  For the orientation the colour
    is green iff the three axes are within their bounds and amber
    otherwise. *)
Theorem colour_tells_the_range
  (key : string) (v lo hi : number) (cfg : Config) (r : Reading) :
  In key ["temperature"; "humidity"; "pressure"] ->
  let col := _color_for key (AnyFloat._bucket v lo hi) in
  let ori := _color_for "orientation" (c_orientation (_classify cfg r)) in
  (col = BLUE <-> num_ltb v lo = true) /\
  (col = RED <-> num_ltb v lo = false /\ num_ltb hi v = true) /\
  (col = GREEN <-> num_ltb v lo = false /\ num_ltb hi v = false) /\
  (forall x a b, v = Fin x -> lo = Fin a -> hi = Fin b ->
     (col = GREEN <-> a <= x /\ x <= b)) /\
  (v = NonFin NaN -> col = GREEN) /\
  (ori = GREEN <-> all_in_range (cfg_orientation cfg) r) /\
  (ori = AMBER <-> ~ all_in_range (cfg_orientation cfg) r).
Proof.
  intros I col ori.
  assert (K : String.eqb key "orientation" = false)
    by (destruct I as [<-|[<-|[<-|[]]]]; reflexivity).
  destruct (scalar_colour key v lo hi K) as (B & R & G). fold col in B, R, G.
  split; [exact B|]. split; [exact R|]. split; [exact G|].
  split; [|split; [|split]].
  - intros x a b -> -> ->. rewrite G. simpl.
    rewrite Qltb_ge, Qltb_ge. tauto.
  - intros ->. apply G. now destruct lo as [a|[| |]], hi as [b|[| |]].
  - subst ori. simpl.
    pose proof (aligned_all_in_range (cfg_orientation cfg) r) as A.
    destruct (aligned (cfg_orientation cfg) r); simpl; unfold GREEN, AMBER;
      split; intros; try reflexivity; try discriminate.
    + now apply A.
    + apply A in H. discriminate.
  - subst ori. simpl.
    pose proof (aligned_all_in_range (cfg_orientation cfg) r) as A.
    destruct (aligned (cfg_orientation cfg) r); simpl; unfold GREEN, AMBER;
      split; intros; try reflexivity; try discriminate.
    + exfalso. apply H. now apply A.
    + intro B'. apply A in B'. discriminate.
Qed.

Lemma colour_tells_the_range_witness :
  _color_for "temperature"
    (AnyFloat._bucket (NonFin NaN) (Fin 18) (Fin 26)) = GREEN.
Proof.
  destruct (colour_tells_the_range "temperature" (NonFin NaN) (Fin 18) (Fin 26)
              scenario_config
              (_read_sensors 0 (mkRaw 20 45 1000 0 0 0))
              (or_introl eq_refl)) as (_ & _ & _ & _ & N & _).
  apply N. reflexivity.
Defined.

(** ** Acknowledgements of the joystick *)

Lemma iter_negb_shift (k : nat) (b : bool) :
  Nat.iter (S k) negb (negb b) = Nat.iter (S (S k)) negb b.
Proof. now rewrite (Nat.iter_succ_r (S k)). Qed.

(** X17: over a sequence of joystick events the monitor shows one
    acknowledgement per press and nothing else: the [k]-th one reads
    [PAUSE] when the flag has become true with that press and [RUN] when
    it has become false, so the texts alternate and the last one names the
    state the monitor is in. *)
Theorem acknowledgements_alternate (events : list InputEvent) (m : Monitor) :
  led (joystick m events)
  = (led m ++ map (fun k => acknowledgement (Nat.iter (S k) negb (paused m)))
                (seq 0 (presses events)))%list.
Proof.
  unfold joystick, presses. revert m.
  induction events as [|e events IH]; intro m; simpl.
  - now rewrite app_nil_r.
  - rewrite IH. destruct (pressed e) eqn:P.
    + destruct (on_middle_pressed_press m e P) as [Hp Hl].
      rewrite Hl, Hp. simpl List.length. cbn [seq map].
      rewrite <- app_assoc. apply f_equal. cbn [app].
      apply f_equal2; [reflexivity|].
      rewrite <- seq_shift, map_map. apply map_ext. intro k.
      now rewrite iter_negb_shift.
    + now rewrite (on_middle_pressed_other m e P).
Qed.

(** ** The display of the older script *)

Lemma legacy_scalar_label (v lo hi : Q) :
  let label := if Qltb v lo then "Low"
               else if Qleb lo v && Qleb v hi then "Comfortable"
               else "High" in
  label = "Low" \/ label = "Comfortable" \/ label = "High".
Proof.
  simpl. destruct (Qltb v lo); [|destruct (Qleb lo v && Qleb v hi)]; auto.
Qed.

(** X18: [display_status] of the older script never fails on the labels
    that its classifiers return: both look-ups in [colors] succeed and the
    two messages are shown, the first in the colour of the temperature
    label and the second in the colour of the orientation label; the
    humidity and pressure labels appear in the texts only. *)
Theorem legacy_display_status_total (g : Legacy.Globals) (t h p pi ro y : Q) :
  let tc := Legacy.classify_temperature g t in
  let hc := Legacy.classify_humidity g h in
  let pc := Legacy.classify_pressure g p in
  let oc := Legacy.classify_orientation g pi ro y in
  exists c1 c2,
    LegacyDisplay.lookup tc LegacyDisplay.colors = Ok c1 /\
    LegacyDisplay.lookup oc LegacyDisplay.colors = Ok c2 /\
    LegacyDisplay.display_status tc hc pc oc
    = ([show_message ("Temp: " ++ tc ++ ", Humidity: " ++ hc) (1#10) c1;
        show_message ("Pressure: " ++ pc ++ ", Orientation: " ++ oc)
          (1#10) c2],
       Ok tt).
Proof.
  intros tc hc pc oc. unfold LegacyDisplay.display_status.
  assert (T : exists c1, LegacyDisplay.lookup tc LegacyDisplay.colors = Ok c1).
  { subst tc. unfold Legacy.classify_temperature.
    destruct (legacy_scalar_label t (Legacy.min_temp g) (Legacy.max_temp g))
      as [E|[E|E]]; simpl in E; rewrite E; eexists; reflexivity. }
  assert (O : exists c2, LegacyDisplay.lookup oc LegacyDisplay.colors = Ok c2).
  { subst oc. unfold Legacy.classify_orientation.
    destruct (_ || _); eexists; reflexivity. }
  destruct T as [c1 T], O as [c2 O]. exists c1, c2.
  rewrite T, O. auto.
Qed.

(** X19: the two scripts do not colour alike.  For a temperature, the
    colour that the older script looks up for its label is the colour that
    [_color_for] of the threaded monitor gives the same label only when
    the label is [Comfortable]: [Low] is red in the older script and blue
    in the monitor, [High] is blue in the older script and red in the
    monitor. *)
Theorem colour_conventions_differ (g : Legacy.Globals) (v : Q) :
  let label := Legacy.classify_temperature g v in
  (LegacyDisplay.lookup label LegacyDisplay.colors
     = Ok (_color_for "temperature" label) <-> label = "Comfortable") /\
  (label = "Low" ->
   LegacyDisplay.lookup label LegacyDisplay.colors = Ok RED /\
   _color_for "temperature" label = BLUE) /\
  (label = "High" ->
   LegacyDisplay.lookup label LegacyDisplay.colors = Ok BLUE /\
   _color_for "temperature" label = RED).
Proof.
  intro label. subst label. unfold Legacy.classify_temperature.
  destruct (legacy_scalar_label v (Legacy.min_temp g) (Legacy.max_temp g))
    as [E|[E|E]]; simpl in E; rewrite E;
    (split; [split; [intro H; vm_compute in H; discriminate || reflexivity
                    | intro H; discriminate || reflexivity]
            | split; intro H; try discriminate; split; reflexivity]).
Qed.

Lemma colour_conventions_differ_witness :
  let g := Legacy.mkGlobals 18 26 30 60 990 1020 10 10 180 in
  LegacyDisplay.lookup (Legacy.classify_temperature g 10) LegacyDisplay.colors
    = Ok RED /\
  _color_for "temperature" (Legacy.classify_temperature g 10) = BLUE.
Proof.
  intro g.
  destruct (colour_conventions_differ g 10) as (_ & H & _).
  apply H. reflexivity.
Defined.

(** ** Exit status, continued *)

(** X20: when the constructor fails with an exception that derives from
    [Exception], [main] prints exactly one line, tagged [[CONFIG ERROR]]
    for a [ConfigError] and [[STARTUP ERROR]] for anything else, and the
    process ends with exit status 1. *)
Theorem startup_failure_reported (e : exn) (env : list Tick) :
  is_Exception e = true ->
  fst (main (Raise e) env)
    = [Tagged (match e with
               | ConfigError _ => "[CONFIG ERROR]"
               | _ => "[STARTUP ERROR]"
               end) e] /\
  exit_status (snd (main (Raise e) env)) = Some 1%Z.
Proof.
  destruct e; simpl; try discriminate; intros _; split; reflexivity.
Qed.

Lemma startup_failure_reported_witness :
  fst (main (Raise AttributeError) [])
    = [Tagged "[STARTUP ERROR]" AttributeError] /\
  exit_status (snd (main (Raise AttributeError) [])) = Some 1%Z.
Proof.
  apply (startup_failure_reported AttributeError []). reflexivity.
Defined.

(** X21: an interrupt that arrives while the sampling loop sleeps ends
    the program in order: [run] ends with [KeyboardInterrupt], [main]
    catches it, prints the line [Exiting...] last, and the process ends
    with exit status 0. *)
Theorem interrupt_exits_cleanly (m : Monitor) (t : Tick) (env : list Tick) :
  _stop m = false -> insert_error t = None -> interrupted t = true ->
  snd (run m (t :: env)) = Finished (Raise KeyboardInterrupt) /\
  exit_status (snd (main (Ok m) (t :: env))) = Some 0%Z /\
  exists printed,
    fst (main (Ok m) (t :: env))
      = (printed ++ [Text (String "010" "Exiting...")])%list.
Proof.
  intros S F I. pose proof (run_interrupted m t env S F I) as R.
  split; [exact R|]. now apply main_interrupted.
Qed.

Lemma interrupt_exits_cleanly_witness :
  let t := mkTick (mkRaw 30 45 1000 0 0 0) "2024-01-01 00:00:00" None [] true in
  snd (run scenario_monitor [t]) = Finished (Raise KeyboardInterrupt) /\
  exit_status (snd (main (Ok scenario_monitor) [t])) = Some 0%Z /\
  exists printed,
    fst (main (Ok scenario_monitor) [t])
      = (printed ++ [Text (String "010" "Exiting...")])%list.
Proof.
  intro t.
  apply (interrupt_exits_cleanly scenario_monitor t []); reflexivity.
Defined.

(** ** Validation, continued *)

Lemma check_sections_first_missing (kvs : list (string * json)) (keys : list string) :
  existsb (fun key => negb (dict_has key kvs)) keys = true ->
  exists key,
    In key keys /\ dict_has key kvs = false /\
    check_sections (JObj kvs) keys
      = Raise (ConfigError ("Missing '" ++ key ++ "' section in config.")).
Proof.
  induction keys as [|k keys IH]; simpl; [discriminate|].
  destruct (dict_has k kvs) eqn:D; simpl.
  - intro H. destruct (IH H) as (key & I & M & E). exists key. auto.
  - intros _. exists k. auto.
Qed.

(** X22: a configuration object that lacks one of the sections
    [temperature], [humidity], [pressure], [orientation] is refused with a
    [ConfigError] whose message names a missing section, before any range
    is looked at. *)
Theorem missing_section_refused (path : string) (kvs : list (string * json)) :
  existsb (fun key => negb (dict_has key kvs))
    ["temperature"; "humidity"; "pressure"; "orientation"] = true ->
  exists key,
    In key ["temperature"; "humidity"; "pressure"; "orientation"] /\
    dict_has key kvs = false /\
    _load_and_validate_config path (inr (JObj kvs))
      = Raise (ConfigError ("Missing '" ++ key ++ "' section in config.")).
Proof.
  intro H. destruct (check_sections_first_missing kvs _ H) as (key & I & M & E).
  exists key. split; [exact I|]. split; [exact M|].
  unfold _load_and_validate_config. now rewrite E.
Qed.

Lemma missing_section_refused_witness :
  exists key,
    In key ["temperature"; "humidity"; "pressure"; "orientation"] /\
    dict_has key [("temperature", JObj [("min", JNum 18); ("max", JNum 26)])]
      = false /\
    _load_and_validate_config "enviro_config.json"
      (inr (JObj [("temperature", JObj [("min", JNum 18); ("max", JNum 26)])]))
      = Raise (ConfigError ("Missing '" ++ key ++ "' section in config.")).
Proof.
  apply (missing_section_refused "enviro_config.json"
           [("temperature", JObj [("min", JNum 18); ("max", JNum 26)])]).
  reflexivity.
Defined.

Lemma valid_config_dec (c : Config) : valid_config c \/ ~ valid_config c.
Proof.
  unfold valid_config, valid_range.
  destruct (Qlt_le_dec (rmin (cfg_temperature c)) (rmax (cfg_temperature c)));
  destruct (Qlt_le_dec (rmin (cfg_humidity c)) (rmax (cfg_humidity c)));
  destruct (Qlt_le_dec (rmin (cfg_pressure c)) (rmax (cfg_pressure c)));
  destruct (Qlt_le_dec (rmin (o_pitch (cfg_orientation c)))
              (rmax (o_pitch (cfg_orientation c))));
  destruct (Qlt_le_dec (rmin (o_roll (cfg_orientation c)))
              (rmax (o_roll (cfg_orientation c))));
  destruct (Qlt_le_dec (rmin (o_yaw (cfg_orientation c)))
              (rmax (o_yaw (cfg_orientation c))));
  try (left; tauto);
  right; intros (H1 & H2 & H3 & H4 & H5 & H6); absurd_order.
Qed.

(** X23: on a document made of the six ranges with finite numeric bounds,
    the loader decides exactly [min < max]: it returns the document (with
    an empty [meta] added) iff every one of the six ranges has [min < max],
    and it raises a [ConfigError] iff one of them has not.  A bound that is
    [nan] is let through, [nan >= max] being false. *)
Theorem numeric_document_validated (path : string) (c : Config) :
  (_load_and_validate_config path (inr (json_of_config c))
     = Ok (with_meta (json_of_config c)) <-> valid_config c) /\
  ((exists msg,
      _load_and_validate_config path (inr (json_of_config c))
        = Raise (ConfigError msg)) <-> ~ valid_config c) /\
  (let nan_min := JObj [("min", JNonFinite NaN); ("max", JNum 26)] in
   let axis := JObj [("min", JNum (-10)); ("max", JNum 10)] in
   _load_and_validate_config path (inr (document nan_min axis))
     = Ok (with_meta (document nan_min axis)) /\
   _load_and_validate_config path (inr (document (json_of_range (mkRange 18 26)) nan_min))
     = Ok (with_meta (document (json_of_range (mkRange 18 26)) nan_min))).
Proof.
  destruct (load_numeric_document path c) as [A R].
  split; [|split; [|split; vm_compute; reflexivity]].
  - destruct (valid_config_dec c) as [V|N].
    + split; [intros _; exact V | intros _; exact (A V)].
    + destruct (R N) as [msg E].
      split; [intro O; rewrite E in O; discriminate|].
      intro V. now destruct (N V).
  - destruct (valid_config_dec c) as [V|N].
    + split; [intros [msg E]; rewrite (A V) in E; discriminate|].
      intro N. now destruct (N V).
    + destruct (R N) as [msg E].
      split; [intros _; exact N | intros _; now exists msg].
Qed.

(** ** The two scripts on floats that are not finite *)

Lemma any_float_finite (g : Legacy.Globals) (v lo hi : Q) :
  AnyFloat._bucket (Fin v) (Fin lo) (Fin hi) = _bucket v lo hi /\
  AnyFloat.classify_temperature (AnyFloat.of_finite g) (Fin v)
    = Legacy.classify_temperature g v /\
  AnyFloat.classify_humidity (AnyFloat.of_finite g) (Fin v)
    = Legacy.classify_humidity g v /\
  AnyFloat.classify_pressure (AnyFloat.of_finite g) (Fin v)
    = Legacy.classify_pressure g v.
Proof. repeat split. Qed.

Lemma any_rule_is_bucket (v lo hi : number) :
  v <> NonFin NaN -> num_ltb lo hi = true ->
  (if num_ltb v lo then "Low"
   else if num_leb lo v && num_leb v hi then "Comfortable"
   else "High") = AnyFloat._bucket v lo hi.
Proof.
  intros N O. unfold AnyFloat._bucket.
  destruct v as [x|[| |]], lo as [a|[| |]], hi as [b|[| |]];
    try discriminate; try congruence; simpl;
    try reflexivity; try apply legacy_rule_is_bucket.
  - cmp x a; [reflexivity|].
    assert (L : Qleb a x = true) by now apply Qleb_le.
    now rewrite L.
  - unfold Qltb, Qleb. destruct (Qle_bool x b); reflexivity.
Qed.

(** C10, as stated, at the value [nan] with the bounds 18 and 26: the
    single-loop script answers [High], its [elif] being false, and
    [_bucket] answers [Comfortable], neither of its tests being true. *)
Lemma legacy_differs_at_nan :
  let g := AnyFloat.of_finite (Legacy.mkGlobals 18 26 30 60 990 1020 10 10 180) in
  AnyFloat.classify_temperature g (NonFin NaN) = "High" /\
  AnyFloat._bucket (NonFin NaN) (AnyFloat.min_temp g) (AnyFloat.max_temp g)
    = "Comfortable" /\
  AnyFloat.classify_temperature g (NonFin NaN)
    <> AnyFloat._bucket (NonFin NaN) (AnyFloat.min_temp g) (AnyFloat.max_temp g) /\
  AnyFloat.classify_humidity g (NonFin NaN)
    <> AnyFloat._bucket (NonFin NaN) (AnyFloat.min_humidity g)
         (AnyFloat.max_humidity g) /\
  AnyFloat.classify_pressure g (NonFin NaN)
    <> AnyFloat._bucket (NonFin NaN) (AnyFloat.min_pressure g)
         (AnyFloat.max_pressure g).
Proof.
  simpl. repeat split; try reflexivity; intro H; vm_compute in H; discriminate.
Qed.

(** C10, amended: for every value other than [nan], infinite ones
    included, and every valid pair of bounds ([min < max], which no [nan]
    bound satisfies), [classify_temperature], [classify_humidity] and
    [classify_pressure] of the single-loop script return the label that
    [_bucket] of the threaded monitor returns for the same value and
    bounds. *)
Theorem legacy_classifiers_agree_unless_nan (g : AnyFloat.Globals) (v : number) :
  v <> NonFin NaN ->
  num_ltb (AnyFloat.min_temp g) (AnyFloat.max_temp g) = true ->
  num_ltb (AnyFloat.min_humidity g) (AnyFloat.max_humidity g) = true ->
  num_ltb (AnyFloat.min_pressure g) (AnyFloat.max_pressure g) = true ->
  AnyFloat.classify_temperature g v
    = AnyFloat._bucket v (AnyFloat.min_temp g) (AnyFloat.max_temp g) /\
  AnyFloat.classify_humidity g v
    = AnyFloat._bucket v (AnyFloat.min_humidity g) (AnyFloat.max_humidity g) /\
  AnyFloat.classify_pressure g v
    = AnyFloat._bucket v (AnyFloat.min_pressure g) (AnyFloat.max_pressure g).
Proof.
  intros N T H P.
  unfold AnyFloat.classify_temperature, AnyFloat.classify_humidity,
    AnyFloat.classify_pressure.
  repeat split; now apply any_rule_is_bucket.
Qed.

Lemma legacy_classifiers_agree_unless_nan_witness :
  let g := AnyFloat.of_finite (Legacy.mkGlobals 18 26 30 60 990 1020 10 10 180) in
  AnyFloat.classify_temperature g (NonFin PosInf)
    = AnyFloat._bucket (NonFin PosInf) (AnyFloat.min_temp g) (AnyFloat.max_temp g) /\
  AnyFloat.classify_humidity g (NonFin PosInf)
    = AnyFloat._bucket (NonFin PosInf) (AnyFloat.min_humidity g)
        (AnyFloat.max_humidity g) /\
  AnyFloat.classify_pressure g (NonFin PosInf)
    = AnyFloat._bucket (NonFin PosInf) (AnyFloat.min_pressure g)
        (AnyFloat.max_pressure g).
Proof.
  intro g.
  apply (legacy_classifiers_agree_unless_nan g (NonFin PosInf));
    [discriminate | reflexivity | reflexivity | reflexivity].
Defined.
